(** * bladeRF_Streaming.cpp: the SoapySDR streaming engine of the bladeRF module

    A shallow embedding of [src/bladeRF_Streaming.cpp] and the properties
    of its receive path, transmit path, burst-end loop, stream set-up and
    sample-format conversion.

    Conventions of the embedding.
    - C++ integers are [Z]; every implicit conversion of the source is
      written out ([wrap_u32], [wrap_u64], [to_int]).  [size_t] is 64 bits.
    - [float] is IEEE-754 binary32 with round-to-nearest-even, evaluated in
      single precision (FLT_EVAL_METHOD 0); it is modelled by the
      [spec_float] operations of the standard library at precision 24.
    - Memory that the source reaches through [void *] is a list of 16-bit
      words; a [float *] view of it reads two consecutive words,
      little-endian.
    - The libbladeRF transport is an oracle: a script of replies that are
      consumed in call order, and a trace of the calls made so far.
    - The class declaration (bladeRF_SoapySDR.hpp) is not part of the
      sources at hand.  What the file needs from it and cannot be read off
      the code is a parameter of [Section Streaming]: the tick/nanosecond
      conversions at the configured sample rates, [_dir2mod], [_err2str]. *)

From Stdlib Require Import ZArith List Bool Lia String Ascii.
From Stdlib Require Import Floats.SpecFloat.
From stdpp Require Import base tactics option list gmap strings.

Local Open Scope Z_scope.

(** ** Machine integers *)

Module CInt.

Definition INT_MIN : Z := - 2 ^ 31.
Definition INT_MAX : Z := 2 ^ 31 - 1.

Definition in_int (x : Z) : bool := (INT_MIN <=? x) && (x <=? INT_MAX).
Definition in_int16 (x : Z) : bool := (- 32768 <=? x) && (x <=? 32767).

(** Conversion to [unsigned int], to [uint64_t]/[size_t] and to [int]. *)
Definition wrap_u32 (x : Z) : Z := x mod 2 ^ 32.
Definition wrap_u64 (x : Z) : Z := x mod 2 ^ 64.
Definition to_int (x : Z) : Z := (x + 2 ^ 31) mod 2 ^ 32 - 2 ^ 31.

(** Signed [int] arithmetic: a result out of range is undefined. *)
Definition checked (x : Z) : option Z := if in_int x then Some x else None.

End CInt.
Export CInt.

(** ** Constants of the headers the file includes

    SoapySDR/Constants.h, SoapySDR/Errors.h, SoapySDR/Logger.h and
    libbladeRF.h. *)

Definition SOAPY_SDR_TX : Z := 0.
Definition SOAPY_SDR_RX : Z := 1.
Definition SOAPY_SDR_END_BURST : Z := 2.
Definition SOAPY_SDR_HAS_TIME : Z := 4.

Definition SOAPY_SDR_TIMEOUT : Z := -1.
Definition SOAPY_SDR_STREAM_ERROR : Z := -2.
Definition SOAPY_SDR_OVERFLOW : Z := -4.
Definition SOAPY_SDR_NOT_SUPPORTED : Z := -5.
Definition SOAPY_SDR_UNDERFLOW : Z := -7.

Definition SOAPY_SDR_ERROR : Z := 3.
Definition SOAPY_SDR_SSI : Z := 9.

Definition BLADERF_ERR_TIMEOUT : Z := -6.
Definition BLADERF_FORMAT_SC16_Q11_META : Z := 1.
Definition BLADERF_META_STATUS_OVERRUN : Z := 1.
Definition BLADERF_META_STATUS_UNDERRUN : Z := 2.
Definition BLADERF_META_FLAG_TX_BURST_START : Z := 1.
Definition BLADERF_META_FLAG_TX_BURST_END : Z := 2.
Definition BLADERF_META_FLAG_TX_NOW : Z := 4.
Definition BLADERF_META_FLAG_RX_NOW : Z := 2 ^ 31.

(** The two defaults of the file itself (lines 26-27). *)
Definition DEF_NUM_BUFFS : Z := 32.
Definition DEF_BUFF_LEN : Z := 4096.

(** ** Single-precision samples *)

Module Float32.

Definition prec : Z := 24.
Definition emax : Z := 128.

(** [float(x)] for an integer [x]. *)
Definition of_Z (x : Z) : spec_float := binary_normalize prec emax x 0 false.

Definition mul : spec_float -> spec_float -> spec_float := SFmul prec emax.
Definition div : spec_float -> spec_float -> spec_float := SFdiv prec emax.

(** Conversion of a float to an integer type discards the fraction. *)
Definition truncate (f : spec_float) : option Z :=
  match f with
  | S754_zero _ => Some 0
  | S754_finite s m e =>
      let a := if 0 <=? e then Z.shiftl (Z.pos m) e
               else Z.shiftr (Z.pos m) (- e) in
      Some (if s then - a else a)
  | S754_infinity _ | S754_nan => None
  end.

(** [int16_t(f)]: undefined unless the truncated value fits. *)
Definition to_int16 (f : spec_float) : option Z :=
  match truncate f with
  | Some z => if in_int16 z then Some z else None
  | None => None
  end.

(** The float whose object representation is the 32-bit pattern [w]. *)
Definition of_bits (w : Z) : spec_float :=
  let sign := Z.testbit w 31 in
  let e := Z.land (Z.shiftr w 23) 255 in
  let m := Z.land w (2 ^ 23 - 1) in
  if e =? 0 then
    match m with
    | Z.pos p => S754_finite sign p (- 149)
    | _ => S754_zero sign
    end
  else if e =? 255 then
    (if m =? 0 then S754_infinity sign else S754_nan)
  else
    match m + 2 ^ 23 with
    | Z.pos p => S754_finite sign p (e - 150)
    | _ => S754_nan
    end.

(** A float read through a [float *] laid over two 16-bit words. *)
Definition of_words (lo hi : Z) : spec_float :=
  of_bits (lo mod 2 ^ 16 + 2 ^ 16 * (hi mod 2 ^ 16)).

End Float32.

(** ** The format converter (lines 230 and 286) *)

(** [float(x)/2000] *)
Definition fixed_to_float (x : Z) : spec_float :=
  Float32.div (Float32.of_Z x) (Float32.of_Z 2000).

(** [int16_t(f*2000)] *)
Definition float_to_fixed (f : spec_float) : option Z :=
  Float32.to_int16 (Float32.mul f (Float32.of_Z 2000)).

(** The composite the round-trip property speaks of. *)
Definition round_trip (v : Z) : option Z := float_to_fixed (fixed_to_float v).

(** Executable universal quantification over [lo, lo + n). *)
Fixpoint forall_from (n : nat) (lo : Z) (p : Z -> bool) : bool :=
  match n with
  | O => true
  | S n' => p lo && forall_from n' (lo + 1) p
  end.

Definition exact_at (v : Z) : bool :=
  match round_trip v with
  | Some r => r =? v
  | None => false
  end.

Definition within_one_toward_zero_at (v : Z) : bool :=
  match round_trip v with
  | Some r => (r =? v) || (r =? v - Z.sgn v)
  | None => false
  end.

(** ** [atoi] of the C library *)

Definition is_space (a : ascii) : bool :=
  let n := Z.of_nat (nat_of_ascii a) in
  (n =? 32) || ((9 <=? n) && (n <=? 13)).

Definition digit_of (a : ascii) : option Z :=
  let n := Z.of_nat (nat_of_ascii a) in
  if (48 <=? n) && (n <=? 57) then Some (n - 48) else None.

Fixpoint skip_spaces (s : string) : string :=
  match s with
  | String a rest => if is_space a then skip_spaces rest else s
  | EmptyString => s
  end.

Fixpoint digits_value (acc : Z) (s : string) : Z :=
  match s with
  | String a rest =>
      match digit_of a with
      | Some d => digits_value (10 * acc + d) rest
      | None => acc
      end
  | EmptyString => acc
  end.

(** White space, an optional sign, then the longest run of digits; the
    behaviour is undefined when the value is not an [int]. *)
Definition atoi (s : string) : option Z :=
  match skip_spaces s with
  | String "-"%char rest => checked (- digits_value 0 rest)
  | String "+"%char rest => checked (digits_value 0 rest)
  | rest => checked (digits_value 0 rest)
  end.

(** ** The transport (libbladeRF) as seen from the file *)

Record bladerf_metadata := Metadata {
  md_timestamp : Z;
  md_flags : Z;
  md_status : Z;
  md_actual_count : Z
}.

Definition md_set_timestamp (t : Z) (md : bladerf_metadata) :=
  Metadata t (md_flags md) (md_status md) (md_actual_count md).

(** [md.flags |= bit] *)
Definition md_or_flags (bit : Z) (md : bladerf_metadata) :=
  Metadata (md_timestamp md) (Z.lor (md_flags md) bit) (md_status md)
           (md_actual_count md).

(** The memory a [samples] pointer designates. *)
Inductive pointer :=
| UserBuffer       (* buffs[0] *)
| RxConvBuff       (* _rxConvBuff *)
| TxConvBuff       (* _txConvBuff *)
| EndBurstSamples. (* the local array of sendTxEndBurst *)

Inductive dev_call :=
| bladerf_sync_config
    (module format num_buffers buffer_size num_transfers stream_timeout : Z)
| bladerf_enable_module (module : Z) (enable : bool)
| bladerf_sync_rx
    (samples : pointer) (num_samples : Z) (md : bladerf_metadata)
    (timeout_ms : Z)
| bladerf_sync_tx
    (samples : pointer) (memory : list Z) (num_samples : Z)
    (md : bladerf_metadata) (timeout_ms : Z).

(** One answer of the transport: the status it returns, the output fields
    it leaves in the metadata and, for a receive, the 16-bit components it
    stores at [samples]. *)
Record dev_reply := Reply {
  ret : Z;
  r_timestamp : Z;
  r_status : Z;
  r_actual_count : Z;
  r_samples : list Z
}.

(** The metadata record once the transport has returned; [flags] is an
    input field and stays as the caller set it. *)
Definition md_after (r : dev_reply) (md : bladerf_metadata) :=
  Metadata (r_timestamp r) (md_flags md) (r_status r) (r_actual_count r).

Record dev_event := Event { ev_call : dev_call; ev_ret : Z }.

Record device := Device {
  replies : list dev_reply;  (* what the transport will answer next *)
  trace : list dev_event     (* the invocations made so far *)
}.

Inductive log_arg := ArgInt (n : Z) | ArgStr (s : string).

Record log_entry := Log { log_level : Z; log_text : string;
                          log_args : list log_arg }.

(** ** The state of the engine *)

Record rxStreamCmd := RxCmd {
  cmd_flags : Z;
  cmd_timeNs : Z;
  cmd_numElems : Z   (* size_t: it is compared with std::min to a size_t *)
}.

Definition cmd_set_flags (f : Z) (c : rxStreamCmd) :=
  RxCmd f (cmd_timeNs c) (cmd_numElems c).
Definition cmd_set_numElems (n : Z) (c : rxStreamCmd) :=
  RxCmd (cmd_flags c) (cmd_timeNs c) n.

Record bladeRF_SoapySDR := Engine {
  _rxCmds : list rxStreamCmd;        (* std::queue, front first *)
  _rxOverflow : bool;
  _rxNextTicks : Z;
  _rxFloats : bool;
  _rxConvBuff : list Z;
  _txFloats : bool;
  _txConvBuff : list Z;
  _inTxBurst : bool;
  _txUnderflow : bool;
  _cachedBuffSizes : gmap Z Z;
  _dev : device;
  logged : list log_entry
}.

Definition set_rxCmds v s := Engine v (_rxOverflow s) (_rxNextTicks s)
  (_rxFloats s) (_rxConvBuff s) (_txFloats s) (_txConvBuff s) (_inTxBurst s)
  (_txUnderflow s) (_cachedBuffSizes s) (_dev s) (logged s).
Definition set_rxOverflow v s := Engine (_rxCmds s) v (_rxNextTicks s)
  (_rxFloats s) (_rxConvBuff s) (_txFloats s) (_txConvBuff s) (_inTxBurst s)
  (_txUnderflow s) (_cachedBuffSizes s) (_dev s) (logged s).
Definition set_rxNextTicks v s := Engine (_rxCmds s) (_rxOverflow s) v
  (_rxFloats s) (_rxConvBuff s) (_txFloats s) (_txConvBuff s) (_inTxBurst s)
  (_txUnderflow s) (_cachedBuffSizes s) (_dev s) (logged s).
Definition set_rxFloats v s := Engine (_rxCmds s) (_rxOverflow s)
  (_rxNextTicks s) v (_rxConvBuff s) (_txFloats s) (_txConvBuff s)
  (_inTxBurst s) (_txUnderflow s) (_cachedBuffSizes s) (_dev s) (logged s).
Definition set_rxConvBuff v s := Engine (_rxCmds s) (_rxOverflow s)
  (_rxNextTicks s) (_rxFloats s) v (_txFloats s) (_txConvBuff s)
  (_inTxBurst s) (_txUnderflow s) (_cachedBuffSizes s) (_dev s) (logged s).
Definition set_txFloats v s := Engine (_rxCmds s) (_rxOverflow s)
  (_rxNextTicks s) (_rxFloats s) (_rxConvBuff s) v (_txConvBuff s)
  (_inTxBurst s) (_txUnderflow s) (_cachedBuffSizes s) (_dev s) (logged s).
Definition set_txConvBuff v s := Engine (_rxCmds s) (_rxOverflow s)
  (_rxNextTicks s) (_rxFloats s) (_rxConvBuff s) (_txFloats s) v
  (_inTxBurst s) (_txUnderflow s) (_cachedBuffSizes s) (_dev s) (logged s).
Definition set_inTxBurst v s := Engine (_rxCmds s) (_rxOverflow s)
  (_rxNextTicks s) (_rxFloats s) (_rxConvBuff s) (_txFloats s)
  (_txConvBuff s) v (_txUnderflow s) (_cachedBuffSizes s) (_dev s)
  (logged s).
Definition set_txUnderflow v s := Engine (_rxCmds s) (_rxOverflow s)
  (_rxNextTicks s) (_rxFloats s) (_rxConvBuff s) (_txFloats s)
  (_txConvBuff s) (_inTxBurst s) v (_cachedBuffSizes s) (_dev s) (logged s).
Definition set_cachedBuffSizes v s := Engine (_rxCmds s) (_rxOverflow s)
  (_rxNextTicks s) (_rxFloats s) (_rxConvBuff s) (_txFloats s)
  (_txConvBuff s) (_inTxBurst s) (_txUnderflow s) v (_dev s) (logged s).
Definition set_dev v s := Engine (_rxCmds s) (_rxOverflow s)
  (_rxNextTicks s) (_rxFloats s) (_rxConvBuff s) (_txFloats s)
  (_txConvBuff s) (_inTxBurst s) (_txUnderflow s) (_cachedBuffSizes s) v
  (logged s).

Definition set_logged v s := Engine (_rxCmds s) (_rxOverflow s)
  (_rxNextTicks s) (_rxFloats s) (_rxConvBuff s) (_txFloats s)
  (_txConvBuff s) (_inTxBurst s) (_txUnderflow s) (_cachedBuffSizes s)
  (_dev s) v.

(** [SoapySDR::logf] and [SoapySDR::log] append to the log. *)
Definition logf (level : Z) (text : string) (args : list log_arg)
    (s : bladeRF_SoapySDR) : bladeRF_SoapySDR :=
  set_logged (logged s ++ [Log level text args]) s.

(** How a call of a member function ends. *)
Inductive outcome (A : Type) : Type :=
| Returns (a : A) (s : bladeRF_SoapySDR)
| Throws (what : string) (s : bladeRF_SoapySDR)   (* std::runtime_error *)
| Undefined                                       (* undefined behaviour *)
| Waiting (s : bladeRF_SoapySDR). (* no reply left: still in the transport *)
Arguments Returns {A} a s.
Arguments Throws {A} what s.
Arguments Undefined {A}.
Arguments Waiting {A} s.

(** The transport answers call [c] with [r]; [rest] is what it will answer
    afterwards. *)
Definition answered (c : dev_call) (r : dev_reply) (rest : list dev_reply)
    (s : bladeRF_SoapySDR) : bladeRF_SoapySDR :=
  set_dev (Device rest (trace (_dev s) ++ [Event c (ret r)])) s.

Definition invoke (c : dev_call) (s : bladeRF_SoapySDR)
    : option (dev_reply * bladeRF_SoapySDR) :=
  match replies (_dev s) with
  | [] => None
  | r :: rest => Some (r, answered c r rest s)
  end.

(** What the caller finds in [buffs[0]] after a receive. *)
Inductive user_out :=
| Untouched
| WroteCS16 (l : list Z)
| WroteCF32 (l : list spec_float).

Record read_result := ReadResult {
  rd_ret : Z;
  rd_flags : Z;     (* int &flags *)
  rd_timeNs : Z;    (* long long &timeNs *)
  rd_buff : user_out
}.

Record status_result := StatusResult {
  st_ret : Z; st_flags : Z; st_timeNs : Z
}.

Definition deref (p : pointer) (buffs0 : list Z) (s : bladeRF_SoapySDR)
    : list Z :=
  match p with
  | UserBuffer => buffs0
  | RxConvBuff => _rxConvBuff s
  | TxConvBuff => _txConvBuff s
  | EndBurstSamples => [0; 0; 0; 0]
  end.

(** [((float * )mem)[i]] *)
Definition read_float (mem : list Z) (i : nat) : option spec_float :=
  match mem !! (2 * i)%nat, mem !! (2 * i + 1)%nat with
  | Some lo, Some hi => Some (Float32.of_words lo hi)
  | _, _ => None
  end.

(** The transport stores [data] at the start of a scratch buffer. *)
Definition store_prefix (data buf : list Z) : option (list Z) :=
  if (length data <=? length buf)%nat
  then Some (data ++ drop (length data) buf)
  else None.

(** The receive conversion loop, lines 228-231: [n] iterations from index
    [i], appending to what [output] already holds. *)
Fixpoint rx_convert_loop (n i : nat) (conv : list Z)
    (output : list spec_float) : option (list spec_float) :=
  match n with
  | O => Some output
  | S n' =>
      match conv !! i with
      | Some x => rx_convert_loop n' (S i) conv (output ++ [fixed_to_float x])
      | None => None
      end
  end.

(** The transmit conversion loop, lines 284-287.  [input] is the pointer
    the source reads through; the store goes to [_txConvBuff]. *)
Fixpoint tx_convert_loop (n i : nat) (input : pointer) (buffs0 : list Z)
    (s : bladeRF_SoapySDR) : option bladeRF_SoapySDR :=
  match n with
  | O => Some s
  | S n' =>
      match read_float (deref input buffs0 s) i with
      | Some f =>
          match float_to_fixed f with
          | Some v =>
              if (i <? length (_txConvBuff s))%nat
              then tx_convert_loop n' (S i) input buffs0
                     (set_txConvBuff (<[i := v]> (_txConvBuff s)) s)
              else None
          | None => None
          end
      | None => None
      end
  end.

(** [while (not _rxCmds.empty()) _rxCmds.pop();] *)
Fixpoint pop_all (q : list rxStreamCmd) : list rxStreamCmd :=
  match q with
  | [] => []
  | _ :: q' => pop_all q'
  end.

(** Lines 46-60 of setupStream: the three tunables. *)
Definition kwarg_int (args : gmap string string) (key : string) : option Z :=
  match args !! key with
  | None => Some 0
  | Some text => atoi text
  end.

Definition stream_tunables (args : gmap string string)
    : option (Z * Z * Z) :=
  numBuffs ← kwarg_int args "buffers";
  let numBuffs := if numBuffs =? 0 then DEF_BUFF_LEN else numBuffs in
  let numBuffs := if numBuffs =? 1 then numBuffs + 1 else numBuffs in
  bufSize ← kwarg_int args "buflen";
  let bufSize := if bufSize =? 0 then DEF_BUFF_LEN else bufSize in
  bufSize ← (if negb (Z.rem bufSize 1024 =? 0)
             then checked ((Z.quot bufSize 1024 + 1) * 1024)
             else Some bufSize);
  numXfers ← kwarg_int args "transfers";
  let numXfers := if numXfers =? 0 then Z.quot numBuffs 2 else numXfers in
  let numXfers := if numBuffs <? numXfers then numBuffs else numXfers in
  let numXfers := if 32 <? numXfers then 32 else numXfers in
  Some (numBuffs, bufSize, numXfers).

(** A transport call is a burst-end transfer when it sends the zeroed
    local array with a count of 2, the burst-end flag and a timeout of one
    second (lines 323-334). *)
Definition is_end_burst_call (c : dev_call) : bool :=
  match c with
  | bladerf_sync_tx EndBurstSamples memory num_samples md timeout_ms =>
      bool_decide (memory = [0; 0; 0; 0]) && (num_samples =? 2)
      && (md_flags md =? BLADERF_META_FLAG_TX_BURST_END)
      && (timeout_ms =? 1000)
  | _ => false
  end.

(** The log lines the retry loop writes for a run of failed attempts: one
    for each failure that is not a timeout. *)
Definition end_burst_errors (fails : list dev_reply) : list log_entry :=
  map (fun r => Log SOAPY_SDR_ERROR
                  "sendTxEndBurst::bladerf_sync_tx() returned %d"
                  [ArgInt (ret r)])
      (filter (fun r => ret r <> BLADERF_ERR_TIMEOUT) fails).

(** The transmit payload as the specification words it: the caller's
    first [n] float components, each scaled by 2000 and truncated. *)
Definition specified_tx_payload (buffs0 : list Z) (n : nat)
    : option (list Z) :=
  mapM (fun i => read_float buffs0 i ≫= float_to_fixed) (seq 0 n).

(** A command joins the back of the receive queue, as activateStream
    puts it there (line 137). *)
Definition enqueue (c : rxStreamCmd) (s : bladeRF_SoapySDR)
    : bladeRF_SoapySDR :=
  set_rxCmds (_rxCmds s ++ [c]) s.

(** The same outcome, on an engine changed by [f]. *)
Definition map_engine {A} (f : bladeRF_SoapySDR -> bladeRF_SoapySDR)
    (o : outcome A) : outcome A :=
  match o with
  | Returns a s => Returns a (f s)
  | Throws what s => Throws what (f s)
  | Undefined => Undefined
  | Waiting s => Waiting (f s)
  end.

(** The request that readStream makes of the transport for the front
    command [cmd] (lines 198-214). *)
Definition rx_request (rx_ticks_of_ns : Z -> Z) (cmd : rxStreamCmd)
    (numElems timeoutUs : Z) (floats : bool) : dev_call :=
  bladerf_sync_rx (if floats then RxConvBuff else UserBuffer)
    (wrap_u32 (if 0 <? cmd_numElems cmd
               then Z.min (cmd_numElems cmd) numElems else numElems))
    (Metadata (rx_ticks_of_ns (cmd_timeNs cmd))
       (if Z.land (cmd_flags cmd) SOAPY_SDR_HAS_TIME =? 0
        then BLADERF_META_FLAG_RX_NOW else 0)
       0 0)
    (wrap_u32 (Z.quot timeoutUs 1000)).

(** The request that writeStream makes of the transport (lines 263-294):
    [floats] and [burst] are [_txFloats] and [_inTxBurst] on entry,
    [payload] is the memory behind [samples]. *)
Definition tx_request (tx_ticks_of_ns : Z -> Z) (floats burst : bool)
    (payload : list Z) (numElems flags timeNs timeoutUs : Z) : dev_call :=
  bladerf_sync_tx (if floats then TxConvBuff else UserBuffer) payload
    (wrap_u32 numElems)
    (Metadata
       (if Z.land flags SOAPY_SDR_HAS_TIME =? 0 then 0
        else tx_ticks_of_ns timeNs)
       (Z.lor (if Z.land flags SOAPY_SDR_HAS_TIME =? 0
               then BLADERF_META_FLAG_TX_NOW else 0)
              (if burst then 0 else BLADERF_META_FLAG_TX_BURST_START))
       0 0)
    (wrap_u32 (Z.quot timeoutUs 1000)).

(** ** Sample data for the closed statements *)

(** An engine nobody has touched, on a transport with nothing to say. *)
Definition idle : bladeRF_SoapySDR :=
  Engine [] false 0 false [] false [] false false ∅ (Device [] []) [].

Definition with_replies (rs : list dev_reply) (s : bladeRF_SoapySDR) :=
  set_dev (Device rs (trace (_dev s))) s.

(** A transfer that succeeds with [n] samples at tick [t]. *)
Definition transferred (t n : Z) : dev_reply := Reply 0 t 0 n [].
(** The same, with the overrun bit raised. *)
Definition overran (t n : Z) : dev_reply :=
  Reply 0 t BLADERF_META_STATUS_OVERRUN n [].
Definition timed_out : dev_reply := Reply BLADERF_ERR_TIMEOUT 0 0 0 [].
(** BLADERF_ERR_IO *)
Definition io_error : dev_reply := Reply (-5) 0 0 0 [].

(** The clocks at one million samples per second. *)
Definition ticks_at_1MHz (ns : Z) : Z := ns / 1000.
Definition ns_at_1MHz (ticks : Z) : Z := ticks * 1000.
(** BLADERF_MODULE_RX is 0 and BLADERF_MODULE_TX is 1. *)
Definition module_of (direction : Z) : Z :=
  if direction =? SOAPY_SDR_RX then 0 else 1.
Definition error_text (code : Z) : string := "transport error".

(** One finite receive command for a hundred samples, to start at once. *)
Definition hundred : rxStreamCmd := RxCmd 0 0 100.

(** The floats 1.0 and 0.5 (0x3F800000, 0x3F000000) as 16-bit words. *)
Definition one_then_half : list Z := [0; 16256; 0; 16128].

(** A float-format transmitter whose scratch buffer holds zeros. *)
Definition float_transmitter : bladeRF_SoapySDR :=
  set_txFloats true (set_txConvBuff [0; 0; 0; 0] idle).

Definition small_buffers : gmap string string :=
  {[ "buffers" := "1"; "buflen" := "100"; "transfers" := "100" ]}.

(** The hundred samples arrive as 40, 35 and 25. *)
Definition three_partials : bladeRF_SoapySDR :=
  with_replies [transferred 0 40; transferred 40 35; transferred 75 25]
    (set_rxCmds [hundred] idle).

(** An overrun on the first transfer, none on the second. *)
Definition overrun_then_data : bladeRF_SoapySDR :=
  with_replies [overran 5000 40; transferred 5040 60]
    (set_rxCmds [hundred] idle).

(** An open burst whose end meets a timeout, then an I/O error, then
    success. *)
Definition busy_then_broken : bladeRF_SoapySDR :=
  with_replies [timed_out; io_error; transferred 0 0]
    (set_inTxBurst true idle).

(** What sendTxEndBurst hands to the transport on its first attempt. *)
Definition first_attempt : dev_call :=
  bladerf_sync_tx EndBurstSamples [0; 0; 0; 0] 2
    (Metadata 0 BLADERF_META_FLAG_TX_BURST_END 0 0) 1000.

(** A float-format receiver with a timed command for two samples, a
    scratch buffer of six words and a transport about to deliver four. *)
Definition float_receiver : bladeRF_SoapySDR :=
  with_replies [Reply 0 100 0 2 [2000; -1000; 500; 250]]
    (set_rxFloats true
       (set_rxConvBuff [7; 7; 7; 7; 7; 7]
          (set_rxCmds [RxCmd SOAPY_SDR_HAS_TIME 3000 2] idle))).

(** A native-format receiver with a finite and a continuous command
    queued, facing the given answers of the transport. *)
Definition receiver_facing (rs : list dev_reply) : bladeRF_SoapySDR :=
  with_replies rs (set_rxCmds [hundred; RxCmd 0 0 0] idle).

(** A success of the transport that reports an underrun. *)
Definition underran : dev_reply :=
  Reply 0 0 BLADERF_META_STATUS_UNDERRUN 0 [].

(** A float-format transmitter whose scratch buffer holds the floats 1.0
    and 0.5 and two more words. *)
Definition stale_transmitter : bladeRF_SoapySDR :=
  with_replies [transferred 0 1]
    (set_txFloats true (set_txConvBuff [0; 16256; 0; 16128; 9; 9] idle)).

(** ** The member functions *)

Section Streaming.

(** [ns*(_rxSampRate/1e9)] and [ticks*(1e9/_rxSampRate)] as the integer the
    source assigns them to, likewise for transmit; the direction-to-module
    map and the error text of a transport status. *)
Variable rx_ticks_of_ns : Z -> Z.
Variable rx_ns_of_ticks : Z -> Z.
Variable tx_ticks_of_ns : Z -> Z.
Variable _dir2mod : Z -> Z.
Variable _err2str : Z -> string.

(** Lines 29-100.  The handle is the direction it points to. *)
Definition setupStream (direction : Z) (format : string)
    (channels : list Z) (args : gmap string string)
    (s : bladeRF_SoapySDR) : outcome Z :=
  if (1 <? length channels)%nat
     || ((0 <? length channels)%nat
         && negb (bool_decide (channels !! 0%nat = Some 0)))
  then Throws "setupStream invalid channel selection" s
  else if negb (String.eqb format "CF32" || String.eqb format "CS16")
  then Throws ("setupStream invalid format " +:+ format) s
  else
    match stream_tunables args with
    | None => Undefined
    | Some (numBuffs, bufSize, numXfers) =>
        match invoke (bladerf_sync_config (_dir2mod direction)
                        BLADERF_FORMAT_SC16_Q11_META (wrap_u32 numBuffs)
                        (wrap_u32 bufSize) (wrap_u32 numXfers) 1000) s with
        | None => Waiting s
        | Some (r, s) =>
            if negb (ret r =? 0) then
              Throws ("setupStream() " +:+ _err2str (ret r))
                (logf SOAPY_SDR_ERROR "bladerf_sync_config() returned %d"
                   [ArgInt (ret r)] s)
            else
              match invoke (bladerf_enable_module (_dir2mod direction) true)
                      s with
              | None => Waiting s
              | Some (r, s) =>
                  if negb (ret r =? 0) then
                    Throws ("setupStream() " +:+ _err2str (ret r))
                      (logf SOAPY_SDR_ERROR
                         "bladerf_enable_module(true) returned %d"
                         [ArgInt (ret r)] s)
                  else
                    let s :=
                      if direction =? SOAPY_SDR_RX
                      then set_rxFloats (String.eqb format "CF32")
                             (set_rxOverflow false s)
                      else s in
                    let s :=
                      if direction =? SOAPY_SDR_TX
                      then set_txFloats (String.eqb format "CF32")
                             (set_txUnderflow false s)
                      else s in
                    let s := set_cachedBuffSizes
                               (<[direction := bufSize]> (_cachedBuffSizes s))
                               s in
                    Returns direction s
              end
        end
    end.

(** Lines 102-115. *)
Definition closeStream (stream : Z) (s : bladeRF_SoapySDR) : outcome unit :=
  let direction := stream in
  match invoke (bladerf_enable_module (_dir2mod direction) false) s with
  | None => Waiting s
  | Some (r, s) =>
      if negb (ret r =? 0) then
        Throws ("closeStream() " +:+ _err2str (ret r))
          (logf SOAPY_SDR_ERROR "bladerf_enable_module(false) returned %s"
             [ArgStr (_err2str (ret r))] s)
      else Returns tt s
  end.

(** Lines 117-121; [std::map::at] throws on a missing key.  The function
    returns a [size_t]: the [int] that line 97 cached comes back
    converted. *)
Definition getStreamMTU (stream : Z) (s : bladeRF_SoapySDR) : outcome Z :=
  let direction := stream in
  match _cachedBuffSizes s !! direction with
  | Some size => Returns (wrap_u64 size) s
  | None => Throws "map::at" s
  end.

(** Lines 123-146. *)
Definition activateStream (stream flags timeNs numElems : Z)
    (s : bladeRF_SoapySDR) : outcome Z :=
  let direction := stream in
  let s :=
    if direction =? SOAPY_SDR_RX
    then set_rxCmds (_rxCmds s ++ [RxCmd flags timeNs numElems]) s
    else s in
  if (direction =? SOAPY_SDR_TX) && negb (flags =? 0)
  then Returns SOAPY_SDR_NOT_SUPPORTED s
  else Returns 0 s.

(** The retry loop of sendTxEndBurst, lines 332-341: one iteration per
    reply of the transport. *)
Fixpoint sendTxEndBurst_loop (script : list dev_reply)
    (md : bladerf_metadata) (s : bladeRF_SoapySDR) : outcome unit :=
  match script with
  | [] => Waiting s
  | r :: script' =>
      let s := answered (bladerf_sync_tx EndBurstSamples [0; 0; 0; 0] 2 md
                           1000) r script' s in
      let md := md_after r md in
      if ret r =? 0 then Returns tt s
      else if ret r =? BLADERF_ERR_TIMEOUT then sendTxEndBurst_loop script' md s
      else
        let s :=
          if negb (ret r =? 0)
          then logf SOAPY_SDR_ERROR
                 "sendTxEndBurst::bladerf_sync_tx() returned %d"
                 [ArgInt (ret r)] s
          else s in
        sendTxEndBurst_loop script' md s
  end.

(** Lines 318-344. *)
Definition sendTxEndBurst (s : bladeRF_SoapySDR) : outcome unit :=
  let md := Metadata 0 BLADERF_META_FLAG_TX_BURST_END 0 0 in
  match sendTxEndBurst_loop (replies (_dev s)) md s with
  | Returns _ s => Returns tt (set_inTxBurst false s)
  | other => other
  end.

(** Lines 148-169. *)
Definition deactivateStream (stream flags : Z) (s : bladeRF_SoapySDR)
    : outcome Z :=
  let direction := stream in
  if negb (flags =? 0) then Returns SOAPY_SDR_NOT_SUPPORTED s
  else
    let s :=
      if direction =? SOAPY_SDR_RX
      then set_rxCmds (pop_all (_rxCmds s)) s
      else s in
    if (direction =? SOAPY_SDR_TX) && _inTxBurst s then
      match sendTxEndBurst s with
      | Returns _ s => Returns 0 s
      | Throws what s => Throws what s
      | Undefined => Undefined
      | Waiting s => Waiting s
      end
    else Returns 0 s.

(** Lines 171-253.  [flags] and [timeNs] are the values the caller's
    variables hold on entry; the result carries what they hold on return.
    The local [md.actual_count] is not initialised by the source and not
    read before the transport has set it. *)
Definition readStream (numElems flags timeNs timeoutUs : Z)
    (s : bladeRF_SoapySDR) : outcome read_result :=
  match _rxCmds s with
  | [] => Returns (ReadResult SOAPY_SDR_TIMEOUT flags timeNs Untouched) s
  | front :: _ =>
      let cmd := front in   (* rxStreamCmd cmd = _rxCmds.front(); *)
      let flags := 0 in
      let timeNs := 0 in
      if _rxOverflow s then
        let s := set_rxOverflow false s in
        let flags := Z.lor flags SOAPY_SDR_HAS_TIME in
        let timeNs := rx_ns_of_ticks (_rxNextTicks s) in
        Returns (ReadResult SOAPY_SDR_OVERFLOW flags timeNs Untouched) s
      else
        let md := Metadata 0 0 0 0 in
        let md :=
          if Z.land (cmd_flags cmd) SOAPY_SDR_HAS_TIME =? 0
          then md_or_flags BLADERF_META_FLAG_RX_NOW md
          else md in
        let md := md_set_timestamp (rx_ticks_of_ns (cmd_timeNs cmd)) md in
        let numElems :=
          if 0 <? cmd_numElems cmd
          then Z.min (cmd_numElems cmd) numElems
          else numElems in
        let cmd := cmd_set_flags 0 cmd in
        let samples := if _rxFloats s then RxConvBuff else UserBuffer in
        match invoke (bladerf_sync_rx samples (wrap_u32 numElems) md
                        (wrap_u32 (Z.quot timeoutUs 1000))) s with
        | None => Waiting s
        | Some (r, s) =>
            let md := md_after r md in
            (* the transport has filled the memory behind [samples] *)
            match (if _rxFloats s
                   then option_map (fun b => (set_rxConvBuff b s, Untouched))
                          (store_prefix (r_samples r) (_rxConvBuff s))
                   else Some (s, WroteCS16 (r_samples r))) with
            | None => Undefined
            | Some (s, user) =>
                if ret r =? BLADERF_ERR_TIMEOUT then
                  Returns (ReadResult SOAPY_SDR_TIMEOUT flags timeNs user) s
                else if negb (ret r =? 0) then
                  let s :=
                    if 0 <? cmd_numElems cmd
                    then set_rxCmds (tail (_rxCmds s)) s
                    else s in
                  let s := logf SOAPY_SDR_ERROR
                             "bladerf_sync_rx() returned %s"
                             [ArgStr (_err2str (ret r))] s in
                  Returns (ReadResult SOAPY_SDR_STREAM_ERROR flags timeNs
                             user) s
                else
                  match (if _rxFloats s
                         then option_map WroteCF32
                                (rx_convert_loop
                                   (Z.to_nat (wrap_u64 (2 * numElems))) 0
                                   (_rxConvBuff s) [])
                         else Some user) with
                  | None => Undefined
                  | Some user =>
                      let flags := Z.lor flags SOAPY_SDR_HAS_TIME in
                      let timeNs := rx_ns_of_ticks (md_timestamp md) in
                      let s :=
                        if negb (Z.land (md_status md)
                                   BLADERF_META_STATUS_OVERRUN =? 0)
                        then
                          set_rxOverflow true
                            (set_rxNextTicks
                               (wrap_u64 (md_timestamp md
                                          + md_actual_count md))
                               (logf SOAPY_SDR_SSI "0" [] s))
                        else s in
                      let '(cmd, s) :=
                        if 0 <? cmd_numElems cmd then
                          let cmd :=
                            cmd_set_numElems
                              (wrap_u64 (cmd_numElems cmd
                                         - md_actual_count md)) cmd in
                          (cmd, if cmd_numElems cmd =? 0
                                then set_rxCmds (tail (_rxCmds s)) s
                                else s)
                        else (cmd, s) in
                      Returns (ReadResult (to_int (md_actual_count md)) flags
                                 timeNs user) s
                  end
            end
        end
  end.

(** Lines 255-316.  [buffs0] is the caller's memory behind [buffs[0]]. *)
Definition writeStream (buffs0 : list Z) (numElems flags timeNs
    timeoutUs : Z) (s : bladeRF_SoapySDR) : outcome Z :=
  let md := Metadata 0 0 0 0 in
  let md :=
    if negb (Z.land flags SOAPY_SDR_HAS_TIME =? 0)
    then md_set_timestamp (tx_ticks_of_ns timeNs) md
    else md_or_flags BLADERF_META_FLAG_TX_NOW md in
  let samples := UserBuffer in
  let samples := if _txFloats s then TxConvBuff else samples in
  match (if _txFloats s
         then let input := samples in   (* float *input = (float * )samples; *)
              tx_convert_loop (Z.to_nat (wrap_u64 (2 * numElems))) 0 input
                buffs0 s
         else Some s) with
  | None => Undefined
  | Some s =>
      let md :=
        if negb (_inTxBurst s)
        then md_or_flags BLADERF_META_FLAG_TX_BURST_START md
        else md in
      match invoke (bladerf_sync_tx samples (deref samples buffs0 s)
                      (wrap_u32 numElems) md
                      (wrap_u32 (Z.quot timeoutUs 1000))) s with
      | None => Waiting s
      | Some (r, s) =>
          let md := md_after r md in
          if ret r =? BLADERF_ERR_TIMEOUT then Returns SOAPY_SDR_TIMEOUT s
          else if negb (ret r =? 0) then
            Returns SOAPY_SDR_STREAM_ERROR
              (logf SOAPY_SDR_ERROR "bladerf_sync_tx() returned %d"
                 [ArgInt (ret r)] s)
          else
            let s := set_inTxBurst true s in
            match (if negb (Z.land flags SOAPY_SDR_END_BURST =? 0)
                   then sendTxEndBurst s
                   else Returns tt s) with
            | Returns _ s =>
                let s :=
                  if negb (Z.land (md_status md)
                             BLADERF_META_STATUS_UNDERRUN =? 0)
                  then set_txUnderflow true (logf SOAPY_SDR_SSI "U" [] s)
                  else s in
                Returns (to_int numElems) s
            | Throws what s => Throws what s
            | Undefined => Undefined
            | Waiting s => Waiting s
            end
      end
  end.

(** Lines 346-364. *)
Definition readStreamStatus (s : bladeRF_SoapySDR) : outcome status_result :=
  let flags := 0 in
  let timeNs := 0 in
  if _txUnderflow s
  then Returns (StatusResult SOAPY_SDR_UNDERFLOW flags timeNs)
         (set_txUnderflow false s)
  else Returns (StatusResult 0 flags timeNs) s.

(** The calls an application can make, and the state each leaves when it
    comes back to the caller (by return or by exception). *)
Inductive api_call :=
| call_setupStream (direction : Z) (format : string) (channels : list Z)
    (args : gmap string string)
| call_closeStream (stream : Z)
| call_getStreamMTU (stream : Z)
| call_activateStream (stream flags timeNs numElems : Z)
| call_deactivateStream (stream flags : Z)
| call_readStream (numElems flags timeNs timeoutUs : Z)
| call_writeStream (buffs0 : list Z) (numElems flags timeNs timeoutUs : Z)
| call_readStreamStatus.

Definition final_state {A} (o : outcome A) : option bladeRF_SoapySDR :=
  match o with
  | Returns _ s | Throws _ s => Some s
  | Undefined | Waiting _ => None
  end.

(** The engine as a call has left it so far, be the call over or still
    waiting on the transport. *)
Definition reached {A} (o : outcome A) : option bladeRF_SoapySDR :=
  match o with
  | Returns _ s | Throws _ s | Waiting s => Some s
  | Undefined => None
  end.

Definition run (c : api_call) (s : bladeRF_SoapySDR)
    : option bladeRF_SoapySDR :=
  match c with
  | call_setupStream d f ch a => final_state (setupStream d f ch a s)
  | call_closeStream h => final_state (closeStream h s)
  | call_getStreamMTU h => final_state (getStreamMTU h s)
  | call_activateStream h f t n => final_state (activateStream h f t n s)
  | call_deactivateStream h f => final_state (deactivateStream h f s)
  | call_readStream n f t to => final_state (readStream n f t to s)
  | call_writeStream b n f t to => final_state (writeStream b n f t to s)
  | call_readStreamStatus => final_state (readStreamStatus s)
  end.

(** ** Properties *)

(** The tail of a successful receive: the three tests of lines 239-251. *)
Ltac finish_read cmd r Hq Hov Hret :=
  destruct (0 <? cmd_numElems cmd) eqn:?;
  [destruct (wrap_u64 (cmd_numElems cmd - r_actual_count r) =? 0) eqn:?|];
  destruct (Z.land (r_status r) BLADERF_META_STATUS_OVERRUN =? 0) eqn:?;
  cbn -[wrap_u64 wrap_u32 to_int Z.mul];
  rewrite ?Hq, ?Hret;
  do 4 eexists; repeat split; try reflexivity;
  cbn -[wrap_u64 wrap_u32 to_int Z.mul];
  rewrite ?Hq, ?Hov, ?Hret; try reflexivity; try congruence.

(** A function that is a tree of tests: walk every branch. *)
Ltac by_cases :=
  intros; repeat case_match; simplify_eq; try reflexivity; try done.

(** *** The embedding at work *)

Example atoi_stops_at_the_first_non_digit : atoi "  42abc" = Some 42.
Proof. reflexivity. Qed.

Example atoi_reads_a_sign : atoi "-7" = Some (- 7).
Proof. reflexivity. Qed.

Example atoi_without_digits : atoi "many" = Some 0.
Proof. reflexivity. Qed.

Example atoi_beyond_int : atoi "2147483648" = None.
Proof. reflexivity. Qed.

Example one_as_words : Float32.of_words 0 16256 = Float32.of_Z 1.
Proof. reflexivity. Qed.

Example full_scale_is_one : fixed_to_float 2000 = Float32.of_Z 1.
Proof. reflexivity. Qed.

Example half_is_1000 : float_to_fixed (Float32.of_words 0 16128) = Some 1000.
Proof. reflexivity. Qed.

Example float_to_fixed_overflows :
  float_to_fixed (Float32.of_Z 17) = None.
Proof. reflexivity. Qed.

Example tunables_of_small_buffers :
  stream_tunables small_buffers = Some (2, 1024, 2).
Proof. reflexivity. Qed.

Example tunables_keep_a_multiple :
  stream_tunables {[ "buflen" := "1024" ]} = Some (4096, 1024, 32).
Proof. reflexivity. Qed.

(** *** Machine integers *)

Lemma to_int_small x : 0 <= x <= INT_MAX -> to_int x = x.
Proof.
  unfold to_int, INT_MAX. intros H.
  rewrite Z.mod_small by lia. lia.
Qed.

Lemma forall_from_spec n : forall lo p,
  forall_from n lo p = true ->
  forall v, lo <= v < lo + Z.of_nat n -> p v = true.
Proof.
  induction n as [|n IH]; intros lo p H v Hv; [lia|].
  cbn [forall_from] in H. apply andb_true_iff in H as [Hlo Hrest].
  destruct (Z.eq_dec v lo) as [->|Hne]; [exact Hlo|].
  apply (IH (lo + 1) p Hrest). lia.
Qed.

(** *** The receive path *)

(** Lines 179-181: nothing queued, nothing done. *)
Lemma readStream_unarmed numElems flags timeNs timeoutUs s :
  _rxCmds s = [] ->
  readStream numElems flags timeNs timeoutUs s
  = Returns (ReadResult SOAPY_SDR_TIMEOUT flags timeNs Untouched) s.
Proof. intros Hq. unfold readStream. now rewrite Hq. Qed.

(** C7. A receive call on an empty command queue returns
    SOAPY_SDR_TIMEOUT at once.  The engine it leaves is the engine it
    found, so there is no state change; the transport's trace and script
    are part of that engine, so the transport is not invoked; and the
    caller's [flags], [timeNs] and buffer are not written. *)
Theorem readStream_empty_queue numElems flags timeNs timeoutUs s :
  _rxCmds s = [] ->
  exists out,
    readStream numElems flags timeNs timeoutUs s = Returns out s
    /\ rd_ret out = SOAPY_SDR_TIMEOUT
    /\ rd_flags out = flags
    /\ rd_timeNs out = timeNs
    /\ rd_buff out = Untouched.
Proof.
  intros Hq. eexists. split; [apply readStream_unarmed, Hq|].
  repeat split.
Qed.

(** What a receive call does once the transport has accepted the transfer:
    the value returned, the caller's outputs, the latch, the queue and the
    transport's trace. *)
Lemma readStream_success numElems flags timeNs timeoutUs s cmd q r rest :
  _rxCmds s = cmd :: q ->
  _rxOverflow s = false ->
  replies (_dev s) = r :: rest ->
  ret r = 0 ->
  readStream numElems flags timeNs timeoutUs s <> Undefined ->
  exists user s' n md,
    readStream numElems flags timeNs timeoutUs s
    = Returns (ReadResult (to_int (r_actual_count r)) SOAPY_SDR_HAS_TIME
                 (rx_ns_of_ticks (r_timestamp r)) user) s'
    /\ _rxOverflow s'
       = negb (Z.land (r_status r) BLADERF_META_STATUS_OVERRUN =? 0)
    /\ (_rxOverflow s' = true ->
        _rxNextTicks s' = wrap_u64 (r_timestamp r + r_actual_count r))
    /\ _rxCmds s'
       = (if (0 <? cmd_numElems cmd)
             && (wrap_u64 (cmd_numElems cmd - r_actual_count r) =? 0)
          then q else cmd :: q)
    /\ replies (_dev s') = rest
    /\ trace (_dev s')
       = trace (_dev s)
         ++ [Event (bladerf_sync_rx
                      (if _rxFloats s then RxConvBuff else UserBuffer)
                      n md (wrap_u32 (Z.quot timeoutUs 1000))) 0].
Proof.
  intros Hq Hov Hr Hret. unfold readStream, invoke.
  rewrite Hq, Hov, Hr. cbn -[wrap_u64 wrap_u32 to_int Z.mul].
  rewrite Hret. cbn -[wrap_u64 wrap_u32 to_int Z.mul].
  destruct (_rxFloats s) eqn:Hfl; cbn -[wrap_u64 wrap_u32 to_int Z.mul].
  - destruct (store_prefix (r_samples r) (_rxConvBuff s)) as [b|];
      cbn -[wrap_u64 wrap_u32 to_int Z.mul]; [|congruence].
    rewrite Hfl.
    match goal with
    | |- context [rx_convert_loop ?n ?i ?c ?o] =>
        destruct (rx_convert_loop n i c o) as [fl|]
    end; cbn -[wrap_u64 wrap_u32 to_int Z.mul]; [|congruence].
    intros _. finish_read cmd r Hq Hov Hret.
  - rewrite Hfl. intros _. finish_read cmd r Hq Hov Hret.
Qed.

(** The overflow branch of readStream, lines 189-195. *)
Lemma readStream_latched numElems flags timeNs timeoutUs s :
  _rxCmds s <> [] ->
  _rxOverflow s = true ->
  readStream numElems flags timeNs timeoutUs s
  = Returns (ReadResult SOAPY_SDR_OVERFLOW SOAPY_SDR_HAS_TIME
               (rx_ns_of_ticks (_rxNextTicks s)) Untouched)
      (set_rxOverflow false s).
Proof.
  intros Hq Hov. unfold readStream.
  destruct (_rxCmds s) as [|cmd q]; [done|].
  now rewrite Hov.
Qed.

(** *** The burst-end loop *)

Lemma end_burst_errors_cons r fails :
  end_burst_errors (r :: fails)
  = (if ret r =? BLADERF_ERR_TIMEOUT then []
     else [Log SOAPY_SDR_ERROR
             "sendTxEndBurst::bladerf_sync_tx() returned %d"
             [ArgInt (ret r)]])
    ++ end_burst_errors fails.
Proof.
  unfold end_burst_errors.
  destruct (Z.eqb_spec (ret r) BLADERF_ERR_TIMEOUT) as [E|E].
  - rewrite filter_cons_False by (intros H; now apply H). reflexivity.
  - rewrite filter_cons_True by exact E. reflexivity.
Qed.

(** The loop goes round once for every failed attempt and leaves at the
    first success. *)
Lemma sendTxEndBurst_loop_until_success fails : forall ok rest md s,
  md_flags md = BLADERF_META_FLAG_TX_BURST_END ->
  Forall (fun r => ret r <> 0) fails ->
  ret ok = 0 ->
  exists calls,
    sendTxEndBurst_loop (fails ++ ok :: rest) md s
    = Returns tt
        (set_logged (logged s ++ end_burst_errors fails)
           (set_dev (Device rest (trace (_dev s) ++ calls)) s))
    /\ map ev_ret calls = map ret (fails ++ [ok])
    /\ Forall (fun e => is_end_burst_call (ev_call e) = true) calls.
Proof.
  induction fails as [|r fails IH]; intros ok rest md s Hmd Hfails Hok.
  - eexists [_]. cbn [app sendTxEndBurst_loop]. rewrite Hok. cbn.
    split; [|split].
    + destruct s. cbn. now rewrite app_nil_r.
    + reflexivity.
    + constructor; [|constructor]. cbn. rewrite Hmd. reflexivity.
  - inversion Hfails as [|? ? Hr Hfails']; subst.
    cbn [app sendTxEndBurst_loop]. rewrite end_burst_errors_cons.
    apply Z.eqb_neq in Hr. rewrite Hr. cbn [negb].
    set (c := bladerf_sync_tx _ _ _ _ _).
    destruct (ret r =? BLADERF_ERR_TIMEOUT).
    + destruct (IH ok rest (md_after r md)
                  (answered c r (fails ++ ok :: rest) s) Hmd Hfails' Hok)
        as (calls & E & Hrets & Hcalls).
      exists (Event c (ret r) :: calls). rewrite E. split; [|split].
      * destruct s. cbn. now rewrite <- app_assoc.
      * cbn. now rewrite Hrets.
      * constructor; [|exact Hcalls]. cbn. rewrite Hmd. reflexivity.
    + destruct (IH ok rest (md_after r md)
                  (logf SOAPY_SDR_ERROR
                     "sendTxEndBurst::bladerf_sync_tx() returned %d"
                     [ArgInt (ret r)]
                     (answered c r (fails ++ ok :: rest) s))
                  Hmd Hfails' Hok)
        as (calls & E & Hrets & Hcalls).
      exists (Event c (ret r) :: calls). rewrite E. split; [|split].
      * destruct s. cbn. now rewrite <- !app_assoc.
      * cbn. now rewrite Hrets.
      * constructor; [|exact Hcalls]. cbn. rewrite Hmd. reflexivity.
Qed.

(** While no attempt succeeds the loop does not leave, whatever the
    failures are. *)
Lemma sendTxEndBurst_loop_no_success script : forall md s,
  Forall (fun r => ret r <> 0) script ->
  exists s',
    sendTxEndBurst_loop script md s = Waiting s'
    /\ _inTxBurst s' = _inTxBurst s
    /\ length (trace (_dev s'))
       = (length (trace (_dev s)) + length script)%nat.
Proof.
  induction script as [|r script IH]; intros md s Hall.
  - exists s. cbn. repeat split. lia.
  - inversion Hall as [|? ? Hr Hall']; subst.
    cbn [sendTxEndBurst_loop]. apply Z.eqb_neq in Hr. rewrite Hr. cbn [negb].
    set (c := bladerf_sync_tx _ _ _ _ _).
    destruct (ret r =? BLADERF_ERR_TIMEOUT).
    + destruct (IH (md_after r md) (answered c r script s) Hall')
        as (s' & E & Hb & Hlen).
      exists s'. rewrite E. repeat split; [exact Hb|].
      rewrite Hlen. cbn. rewrite length_app. cbn. lia.
    + destruct (IH (md_after r md)
                  (logf SOAPY_SDR_ERROR
                     "sendTxEndBurst::bladerf_sync_tx() returned %d"
                     [ArgInt (ret r)] (answered c r script s)) Hall')
        as (s' & E & Hb & Hlen).
      exists s'. rewrite E. repeat split; [exact Hb|].
      rewrite Hlen. cbn. rewrite length_app. cbn. lia.
Qed.

(** sendTxEndBurst on a script whose first success comes after [fails]. *)
Lemma sendTxEndBurst_until_success s fails ok rest :
  replies (_dev s) = fails ++ ok :: rest ->
  Forall (fun r => ret r <> 0) fails ->
  ret ok = 0 ->
  exists calls,
    sendTxEndBurst s
    = Returns tt
        (set_inTxBurst false
           (set_logged (logged s ++ end_burst_errors fails)
              (set_dev (Device rest (trace (_dev s) ++ calls)) s)))
    /\ map ev_ret calls = map ret (fails ++ [ok])
    /\ Forall (fun e => is_end_burst_call (ev_call e) = true) calls.
Proof.
  intros Hscript Hfails Hok. unfold sendTxEndBurst. rewrite Hscript.
  destruct (sendTxEndBurst_loop_until_success fails ok rest
              (Metadata 0 BLADERF_META_FLAG_TX_BURST_END 0 0) s
              eq_refl Hfails Hok) as (calls & E & Hrets & Hcalls).
  exists calls. now rewrite E.
Qed.

(** C3, as the code has it.  sendTxEndBurst repeats the burst-end transfer
    after every failure: silently after a timeout, and after any other
    error once it has logged it.  It leaves the loop at the first transfer
    that succeeds and only then clears [_inTxBurst]; as long as no transfer
    succeeds it stays in the loop and the flag keeps its value.  Every
    attempt sends the zeroed local array with a sample count of 2 (two
    complex samples), the burst-end flag and a timeout of one second. *)
Theorem sendTxEndBurst_retries_until_success s :
  (forall fails ok rest,
     replies (_dev s) = fails ++ ok :: rest ->
     Forall (fun r => ret r <> 0) fails ->
     ret ok = 0 ->
     exists calls,
       sendTxEndBurst s
       = Returns tt
           (set_inTxBurst false
              (set_logged (logged s ++ end_burst_errors fails)
                 (set_dev (Device rest (trace (_dev s) ++ calls)) s)))
       /\ map ev_ret calls = map ret (fails ++ [ok])
       /\ Forall (fun e => is_end_burst_call (ev_call e) = true) calls)
  /\ (Forall (fun r => ret r <> 0) (replies (_dev s)) ->
      exists s',
        sendTxEndBurst s = Waiting s'
        /\ _inTxBurst s' = _inTxBurst s
        /\ length (trace (_dev s'))
           = (length (trace (_dev s)) + length (replies (_dev s)))%nat).
Proof.
  split.
  - apply sendTxEndBurst_until_success.
  - intros Hall. unfold sendTxEndBurst.
    destruct (sendTxEndBurst_loop_no_success (replies (_dev s))
                (Metadata 0 BLADERF_META_FLAG_TX_BURST_END 0 0) s Hall)
      as (s' & E & Hb & Hlen).
    exists s'. now rewrite E.
Qed.

Lemma sendTxEndBurst_loop_returns script : forall md s u s',
  md_flags md = BLADERF_META_FLAG_TX_BURST_END ->
  sendTxEndBurst_loop script md s = Returns u s' ->
  _inTxBurst s' = _inTxBurst s
  /\ exists pre c,
       trace (_dev s') = trace (_dev s) ++ pre ++ [Event c 0]
       /\ is_end_burst_call c = true.
Proof.
  induction script as [|r script IH]; intros md s u s' Hmd Hrun;
    [discriminate|].
  cbn [sendTxEndBurst_loop] in Hrun.
  set (c := bladerf_sync_tx _ _ _ _ _) in Hrun.
  assert (Hc : is_end_burst_call c = true) by (cbn; now rewrite Hmd).
  destruct (Z.eqb_spec (ret r) 0) as [E0|E0].
  - inversion Hrun; subst. split; [reflexivity|].
    exists [], c. cbn. now rewrite E0.
  - cbn [negb] in Hrun.
    destruct (ret r =? BLADERF_ERR_TIMEOUT);
      apply IH in Hrun as (Hb & pre & c' & Htr & Hc'); try exact Hmd;
      (split; [exact Hb|]);
      exists (Event c (ret r) :: pre), c'; (split; [|exact Hc']);
      rewrite Htr; cbn; now rewrite <- app_assoc.
Qed.

Lemma sendTxEndBurst_returns s u s' :
  sendTxEndBurst s = Returns u s' ->
  _inTxBurst s' = false
  /\ exists pre c,
       trace (_dev s') = trace (_dev s) ++ pre ++ [Event c 0]
       /\ is_end_burst_call c = true.
Proof.
  unfold sendTxEndBurst. intros H.
  destruct (sendTxEndBurst_loop _ _ s) as [u0 s0| | |] eqn:E; try discriminate.
  inversion H; subst.
  apply sendTxEndBurst_loop_returns in E as (_ & pre & c & Htr & Hc);
    [|reflexivity].
  split; [reflexivity|]. now exists pre, c.
Qed.

(** The burst-end operation neither throws nor strays into undefined
    behaviour. *)
Lemma sendTxEndBurst_loop_ends_or_waits script : forall md s,
  (exists s', sendTxEndBurst_loop script md s = Returns tt s')
  \/ (exists s', sendTxEndBurst_loop script md s = Waiting s').
Proof.
  induction script as [|r script IH]; intros md s; cbn [sendTxEndBurst_loop].
  - right. now exists s.
  - destruct (ret r =? 0); [left; eauto|].
    destruct (ret r =? BLADERF_ERR_TIMEOUT); apply IH.
Qed.

(** *** The transmit path *)

(** The conversion loop writes to the scratch buffer and to nothing else. *)
Lemma tx_convert_loop_frame n : forall i input buffs0 s s',
  tx_convert_loop n i input buffs0 s = Some s' ->
  s' = set_txConvBuff (_txConvBuff s') s.
Proof.
  induction n as [|n IH]; intros i input buffs0 s s' H;
    cbn [tx_convert_loop] in H.
  - inversion H; subst. now destruct s'.
  - destruct (read_float _ _); [|discriminate].
    destruct (float_to_fixed _); [|discriminate].
    destruct (_ <? _)%nat; [|discriminate].
    apply IH in H. rewrite H. now destruct s.
Qed.

(** Reading through a pointer to the scratch buffer, the loop never looks
    at the caller's memory. *)
Lemma tx_convert_loop_ignores_caller n : forall i buffs0 buffs0' s,
  tx_convert_loop n i TxConvBuff buffs0 s
  = tx_convert_loop n i TxConvBuff buffs0' s.
Proof.
  induction n as [|n IH]; intros i buffs0 buffs0' s;
    cbn [tx_convert_loop deref]; [reflexivity|].
  destruct (read_float _ _); [|reflexivity].
  destruct (float_to_fixed _); [|reflexivity].
  destruct (_ <? _)%nat; [|reflexivity].
  apply IH.
Qed.

(** Run over its own buffer the loop is safe against itself: the float at
    index [j] lies in the words [2j] and [2j+1], which no earlier store has
    reached.  So the loop leaves in word [j] the conversion of the float
    that the buffer held at index [j] on entry. *)
Lemma tx_convert_loop_in_place n : forall i buffs0 s s' (old : list Z),
  length (_txConvBuff s) = length old ->
  (forall j, (i <= j)%nat -> _txConvBuff s !! j = old !! j) ->
  tx_convert_loop n i TxConvBuff buffs0 s = Some s' ->
  length (_txConvBuff s') = length old
  /\ (forall j, (j < i)%nat -> _txConvBuff s' !! j = _txConvBuff s !! j)
  /\ (forall j, (i <= j < i + n)%nat ->
        exists f v, read_float old j = Some f
                    /\ float_to_fixed f = Some v
                    /\ _txConvBuff s' !! j = Some v)
  /\ (forall j, (i + n <= j)%nat -> _txConvBuff s' !! j = old !! j).
Proof.
  induction n as [|n IH]; intros i buffs0 s s' old Hlen Hagree H;
    cbn [tx_convert_loop deref] in H.
  - inversion H; subst. repeat split; try done.
    + intros j Hj. lia.
    + intros j Hj. apply Hagree. lia.
  - destruct (read_float (_txConvBuff s) i) as [f|] eqn:Hf; [|discriminate].
    destruct (float_to_fixed f) as [v|] eqn:Hv; [|discriminate].
    destruct (Nat.ltb_spec i (length (_txConvBuff s))) as [Hi|Hi];
      [|discriminate].
    assert (Hf' : read_float old i = Some f).
    { unfold read_float in *. rewrite <- !Hagree by lia. exact Hf. }
    apply (IH (S i) buffs0 _ s' old) in H.
    + destruct H as (Hlen' & Hbelow & Hdone & Habove).
      cbn [_txConvBuff set_txConvBuff] in Hbelow.
      split; [exact Hlen'|]. split; [|split].
      * intros j Hj. rewrite Hbelow by lia.
        apply list_lookup_insert_ne. lia.
      * intros j Hj. destruct (Nat.eq_dec j i) as [->|Hne].
        -- exists f, v. repeat split; try done.
           rewrite Hbelow by lia. now apply list_lookup_insert_eq.
        -- apply Hdone. lia.
      * intros j Hj. apply Habove. lia.
    + cbn [_txConvBuff set_txConvBuff]. now rewrite length_insert.
    + intros j Hj. cbn [_txConvBuff set_txConvBuff].
      rewrite list_lookup_insert_ne by lia. apply Hagree. lia.
Qed.

(** How a transmit call that comes back has come back. *)
Lemma writeStream_returns buffs0 numElems flags timeNs timeoutUs s result s' :
  writeStream buffs0 numElems flags timeNs timeoutUs s = Returns result s' ->
  exists r rest,
    replies (_dev s) = r :: rest
    /\ ((ret r = BLADERF_ERR_TIMEOUT /\ result = SOAPY_SDR_TIMEOUT
         /\ _inTxBurst s' = _inTxBurst s)
        \/ (ret r <> BLADERF_ERR_TIMEOUT /\ ret r <> 0
            /\ result = SOAPY_SDR_STREAM_ERROR
            /\ _inTxBurst s' = _inTxBurst s)
        \/ (ret r = 0 /\ result = to_int numElems
            /\ Z.land flags SOAPY_SDR_END_BURST = 0
            /\ _inTxBurst s' = true)
        \/ (ret r = 0 /\ result = to_int numElems
            /\ Z.land flags SOAPY_SDR_END_BURST <> 0
            /\ _inTxBurst s' = false
            /\ exists pre c,
                 trace (_dev s') = trace (_dev s) ++ pre ++ [Event c 0]
                 /\ is_end_burst_call c = true)).
Proof.
  unfold writeStream. intros H.
  destruct (if _txFloats s then _ else Some s) as [s0|] eqn:Hconv;
    [|discriminate].
  assert (Hs0 : s0 = set_txConvBuff (_txConvBuff s0) s).
  { destruct (_txFloats s).
    - now apply tx_convert_loop_frame in Hconv.
    - inversion Hconv; subst. now destruct s0. }
  unfold invoke in H.
  assert (Hdev : _dev s0 = _dev s) by (now rewrite Hs0).
  assert (Hb : _inTxBurst s0 = _inTxBurst s) by (now rewrite Hs0).
  rewrite Hdev in H.
  destruct (replies (_dev s)) as [|r rest]; [discriminate|].
  exists r, rest. split; [reflexivity|].
  destruct (Z.eqb_spec (ret r) BLADERF_ERR_TIMEOUT) as [Et|Et].
  { inversion H; subst. left. repeat split; try done. }
  destruct (Z.eqb_spec (ret r) 0) as [E0|E0]; cbn [negb] in H.
  2:{ inversion H; subst. right. left. repeat split; try done. }
  destruct (Z.eqb_spec (Z.land flags SOAPY_SDR_END_BURST) 0) as [Ee|Ee];
    cbn [negb] in H.
  { inversion H; subst. right. right. left. repeat split; try done.
    now destruct (negb _). }
  right. right. right.
  match type of H with
  | context [sendTxEndBurst ?x] =>
      destruct (sendTxEndBurst x) as [u s1| | |] eqn:Eb; try discriminate
  end.
  inversion H; subst.
  apply sendTxEndBurst_returns in Eb as (Hf & pre & c & Htr & Hc).
  cbn -[wrap_u32 wrap_u64 Z.quot] in Htr. rewrite Hdev in Htr.
  repeat split; try done.
  - destruct (negb (Z.land (r_status r) _ =? 0)); exact Hf.
  - eexists (_ :: pre), c. split; [|exact Hc].
    destruct (negb (Z.land (r_status r) _ =? 0)); cbn;
      rewrite Htr, <- app_assoc; reflexivity.
Qed.

Lemma first_success_split (script : list dev_reply) :
  Exists (fun r => ret r = 0) script ->
  exists fails ok rest,
    script = fails ++ ok :: rest
    /\ Forall (fun r => ret r <> 0) fails
    /\ ret ok = 0.
Proof.
  induction script as [|r script IH]; intros H; [inversion H|].
  destruct (Z.eq_dec (ret r) 0) as [E|E].
  - exists [], r, script. repeat split; [constructor|exact E].
  - inversion H as [? ? H0|? ? Hex]; subst; [contradiction|].
    destruct (IH Hex) as (fails & ok & rest & -> & Hf & Hok).
    exists (r :: fails), ok, rest. repeat split; [|exact Hok].
    now constructor.
Qed.

(** A transmit call whose transfer the transport accepts returns the
    element count it was asked to send. *)
Lemma writeStream_success buffs0 numElems flags timeNs timeoutUs s r rest :
  replies (_dev s) = r :: rest ->
  ret r = 0 ->
  writeStream buffs0 numElems flags timeNs timeoutUs s <> Undefined ->
  Z.land flags SOAPY_SDR_END_BURST = 0
  \/ Exists (fun r' => ret r' = 0) rest ->
  exists s',
    writeStream buffs0 numElems flags timeNs timeoutUs s
    = Returns (to_int numElems) s'.
Proof.
  intros Hr Hret. unfold writeStream.
  destruct (if _txFloats s then _ else Some s) as [s0|] eqn:Hconv;
    [|congruence].
  intros _ Hend.
  assert (Hs0 : s0 = set_txConvBuff (_txConvBuff s0) s).
  { destruct (_txFloats s).
    - now apply tx_convert_loop_frame in Hconv.
    - inversion Hconv; subst. now destruct s0. }
  assert (Hdev : _dev s0 = _dev s) by (now rewrite Hs0).
  unfold invoke. rewrite Hdev, Hr, Hret. cbn [Z.eqb negb].
  change (0 =? BLADERF_ERR_TIMEOUT) with false. cbn match.
  destruct (Z.eqb_spec (Z.land flags SOAPY_SDR_END_BURST) 0) as [E|E];
    cbn [negb]; [eauto|].
  destruct Hend as [Hend|Hend]; [contradiction|].
  destruct (first_success_split rest Hend)
    as (fails & ok & rest' & Hrest & Hfails & Hok).
  match goal with
  | |- context [sendTxEndBurst ?x] =>
      destruct (sendTxEndBurst_until_success x fails ok rest')
        as (calls & Eb & _); try done
  end.
  rewrite Eb. eauto.
Qed.

(** *** Who touches the burst flag *)

Lemma setupStream_keeps_burst direction format channels args s s' :
  final_state (setupStream direction format channels args s) = Some s' ->
  _inTxBurst s' = _inTxBurst s.
Proof. unfold setupStream, invoke, final_state. by_cases. Qed.

Lemma closeStream_keeps_burst stream s s' :
  final_state (closeStream stream s) = Some s' ->
  _inTxBurst s' = _inTxBurst s.
Proof. unfold closeStream, invoke, final_state. by_cases. Qed.

Lemma getStreamMTU_keeps_burst stream s s' :
  final_state (getStreamMTU stream s) = Some s' ->
  _inTxBurst s' = _inTxBurst s.
Proof. unfold getStreamMTU, final_state. by_cases. Qed.

Lemma activateStream_keeps_burst stream flags timeNs numElems s s' :
  final_state (activateStream stream flags timeNs numElems s) = Some s' ->
  _inTxBurst s' = _inTxBurst s.
Proof. unfold activateStream, final_state. by_cases. Qed.

Lemma readStreamStatus_keeps_burst s s' :
  final_state (readStreamStatus s) = Some s' ->
  _inTxBurst s' = _inTxBurst s.
Proof. unfold readStreamStatus, final_state. by_cases. Qed.

Lemma readStream_keeps_burst numElems flags timeNs timeoutUs s s' :
  final_state (readStream numElems flags timeNs timeoutUs s) = Some s' ->
  _inTxBurst s' = _inTxBurst s.
Proof.
  unfold readStream, invoke, final_state. intros H.
  repeat case_match; simplify_eq; try reflexivity;
    repeat match goal with
           | H : option_map _ ?o = Some _ |- _ =>
               destruct o; cbn in H; simplify_eq
           | H : (if ?c then _ else _) = _ |- _ => destruct c; simplify_eq
           end; reflexivity.
Qed.

Lemma sendTxEndBurst_never_throws s what s' :
  sendTxEndBurst s <> Throws what s' /\ sendTxEndBurst s <> Undefined.
Proof.
  unfold sendTxEndBurst.
  destruct (sendTxEndBurst_loop_ends_or_waits (replies (_dev s))
              (Metadata 0 BLADERF_META_FLAG_TX_BURST_END 0 0) s)
    as [[s1 E]|[s1 E]]; rewrite E; split; discriminate.
Qed.

Lemma writeStream_never_throws buffs0 numElems flags timeNs timeoutUs s
    what s' :
  writeStream buffs0 numElems flags timeNs timeoutUs s <> Throws what s'.
Proof.
  unfold writeStream, invoke. repeat case_match; try discriminate.
  all: match goal with
       | H : sendTxEndBurst ?x = Throws ?w ?y |- _ =>
           exfalso; exact (proj1 (sendTxEndBurst_never_throws x w y) H)
       end.
Qed.

Lemma deactivateStream_ends_burst stream flags s s' :
  final_state (deactivateStream stream flags s) = Some s' ->
  _inTxBurst s = true ->
  _inTxBurst s' = false ->
  exists pre c,
    trace (_dev s') = trace (_dev s) ++ pre ++ [Event c 0]
    /\ is_end_burst_call c = true.
Proof.
  unfold deactivateStream, final_state. intros H Hon Hoff.
  destruct (negb (flags =? 0)); [simplify_eq; congruence|].
  set (s0 := if stream =? SOAPY_SDR_RX then _ else s) in H.
  assert (Hb : _inTxBurst s0 = _inTxBurst s)
    by (subst s0; now destruct (stream =? SOAPY_SDR_RX)).
  assert (Hd : _dev s0 = _dev s)
    by (subst s0; now destruct (stream =? SOAPY_SDR_RX)).
  destruct ((stream =? SOAPY_SDR_TX) && _inTxBurst s0);
    [|simplify_eq; congruence].
  destruct (sendTxEndBurst s0) as [u s1|w s1| |] eqn:E; simplify_eq.
  - apply sendTxEndBurst_returns in E as (_ & pre & c & Htr & Hc).
    exists pre, c. now rewrite <- Hd.
  - exfalso. exact (proj1 (sendTxEndBurst_never_throws s0 w s') E).
Qed.

(** A transmit call whose transfer the transport refuses. *)
Lemma writeStream_failure buffs0 numElems flags timeNs timeoutUs s r rest :
  replies (_dev s) = r :: rest ->
  ret r <> 0 ->
  writeStream buffs0 numElems flags timeNs timeoutUs s <> Undefined ->
  exists s',
    writeStream buffs0 numElems flags timeNs timeoutUs s
    = Returns (if ret r =? BLADERF_ERR_TIMEOUT then SOAPY_SDR_TIMEOUT
               else SOAPY_SDR_STREAM_ERROR) s'
    /\ _inTxBurst s' = _inTxBurst s
    /\ replies (_dev s') = rest
    /\ length (trace (_dev s')) = S (length (trace (_dev s))).
Proof.
  intros Hr Hret. unfold writeStream.
  destruct (if _txFloats s then _ else Some s) as [s0|] eqn:Hconv;
    [|congruence].
  intros _.
  assert (Hs0 : s0 = set_txConvBuff (_txConvBuff s0) s).
  { destruct (_txFloats s).
    - now apply tx_convert_loop_frame in Hconv.
    - inversion Hconv; subst. now destruct s0. }
  assert (Hdev : _dev s0 = _dev s) by (now rewrite Hs0).
  assert (Hb : _inTxBurst s0 = _inTxBurst s) by (now rewrite Hs0).
  unfold invoke. rewrite Hdev, Hr.
  destruct (ret r =? BLADERF_ERR_TIMEOUT).
  - eexists. split; [reflexivity|]. cbn. rewrite Hdev, length_app. cbn.
    repeat split; [exact Hb|lia].
  - apply Z.eqb_neq in Hret. rewrite Hret. cbn [negb].
    eexists. split; [reflexivity|]. cbn. rewrite Hdev, length_app. cbn.
    repeat split; [exact Hb|lia].
Qed.

(** A transmit call that is to end the burst, on a transport that accepts
    the data and then, after the failures [fails], the burst-end
    transfer. *)
Lemma writeStream_closes_burst
    buffs0 numElems flags timeNs timeoutUs s r rest fails ok rest' :
  replies (_dev s) = r :: rest ->
  ret r = 0 ->
  Z.land flags SOAPY_SDR_END_BURST <> 0 ->
  rest = fails ++ ok :: rest' ->
  Forall (fun r' => ret r' <> 0) fails ->
  ret ok = 0 ->
  writeStream buffs0 numElems flags timeNs timeoutUs s <> Undefined ->
  exists s' data calls,
    writeStream buffs0 numElems flags timeNs timeoutUs s
    = Returns (to_int numElems) s'
    /\ _inTxBurst s' = false
    /\ _dev s' = Device rest' (trace (_dev s) ++ Event data 0 :: calls)
    /\ is_end_burst_call data = false
    /\ map ev_ret calls = map ret (fails ++ [ok])
    /\ Forall (fun e => is_end_burst_call (ev_call e) = true) calls.
Proof.
  intros Hr Hret Hend Hrest Hfails Hok. unfold writeStream.
  destruct (if _txFloats s then _ else Some s) as [s0|] eqn:Hconv;
    [|congruence].
  intros _.
  assert (Hs0 : s0 = set_txConvBuff (_txConvBuff s0) s).
  { destruct (_txFloats s).
    - now apply tx_convert_loop_frame in Hconv.
    - inversion Hconv; subst. now destruct s0. }
  assert (Hdev : _dev s0 = _dev s) by (now rewrite Hs0).
  unfold invoke. rewrite Hdev, Hr, Hret. cbn [Z.eqb negb].
  change (0 =? BLADERF_ERR_TIMEOUT) with false. cbn match.
  apply Z.eqb_neq in Hend. rewrite Hend. cbn [negb].
  set (c := bladerf_sync_tx _ _ _ _ _).
  assert (Hc : is_end_burst_call c = false)
    by (subst c; now destruct (_txFloats s)).
  destruct (sendTxEndBurst_until_success
              (set_inTxBurst true (answered c r rest s0)) fails ok rest')
    as (calls & Eb & Hrets & Hcalls); [exact Hrest|exact Hfails|exact Hok|].
  rewrite Eb. exists
    (if negb (Z.land (r_status r) BLADERF_META_STATUS_UNDERRUN =? 0)
     then set_txUnderflow true
            (logf SOAPY_SDR_SSI "U" []
               (set_inTxBurst false
                  (set_logged
                     (logged (set_inTxBurst true (answered c r rest s0))
                      ++ end_burst_errors fails)
                     (set_dev
                        (Device rest'
                           (trace
                              (_dev (set_inTxBurst true
                                       (answered c r rest s0)))
                            ++ calls))
                        (set_inTxBurst true (answered c r rest s0))))))
     else set_inTxBurst false
            (set_logged
               (logged (set_inTxBurst true (answered c r rest s0))
                ++ end_burst_errors fails)
               (set_dev
                  (Device rest'
                     (trace (_dev (set_inTxBurst true
                                     (answered c r rest s0)))
                      ++ calls))
                  (set_inTxBurst true (answered c r rest s0))))), c, calls.
  split; [reflexivity|].
  destruct (negb (Z.land (r_status r) _ =? 0)); cbn;
    rewrite Hdev, Hret, <- app_assoc; repeat split; done.
Qed.

(** C5, as the code has it.  First, by what a transmit call with an
    element count that fits an [int] returns: if it returns
    SOAPY_SDR_TIMEOUT or SOAPY_SDR_STREAM_ERROR, [_inTxBurst] is as it was
    before the call; if it returns a transferred count and the caller did
    not ask for the end of the burst, the flag is set; if the caller asked
    for the end of the burst, the flag is clear and the last transport
    call of the call is a burst-end transfer that returned success,
    whether or not a burst was open on entry.  Second, by what the
    transport answers, for any element count: a refused transfer makes the
    call return SOAPY_SDR_TIMEOUT or SOAPY_SDR_STREAM_ERROR with the flag
    as it was; an accepted one without a request for the end of the burst
    makes it return with the flag set; an accepted one with such a request
    makes it run burst-end transfers until the first that succeeds and
    return with the flag clear.  Third, whatever the application calls,
    the flag goes from set to clear only in a call whose last transport
    call is a burst-end transfer that returned success. *)
Theorem burst_flag_discipline :
  (forall buffs0 numElems flags timeNs timeoutUs s result s',
     0 <= numElems <= INT_MAX ->
     writeStream buffs0 numElems flags timeNs timeoutUs s
     = Returns result s' ->
     (result = SOAPY_SDR_TIMEOUT \/ result = SOAPY_SDR_STREAM_ERROR ->
      _inTxBurst s' = _inTxBurst s)
     /\ (0 <= result -> Z.land flags SOAPY_SDR_END_BURST = 0 ->
         _inTxBurst s' = true)
     /\ (0 <= result -> Z.land flags SOAPY_SDR_END_BURST <> 0 ->
         _inTxBurst s' = false
         /\ exists pre e,
              trace (_dev s') = trace (_dev s) ++ pre ++ [Event e 0]
              /\ is_end_burst_call e = true))
  /\ (forall buffs0 numElems flags timeNs timeoutUs s r rest,
        replies (_dev s) = r :: rest ->
        writeStream buffs0 numElems flags timeNs timeoutUs s <> Undefined ->
        (ret r <> 0 ->
         exists s',
           writeStream buffs0 numElems flags timeNs timeoutUs s
           = Returns (if ret r =? BLADERF_ERR_TIMEOUT
                      then SOAPY_SDR_TIMEOUT
                      else SOAPY_SDR_STREAM_ERROR) s'
           /\ _inTxBurst s' = _inTxBurst s
           /\ replies (_dev s') = rest
           /\ length (trace (_dev s')) = S (length (trace (_dev s))))
        /\ (ret r = 0 -> Z.land flags SOAPY_SDR_END_BURST = 0 ->
            exists s',
              writeStream buffs0 numElems flags timeNs timeoutUs s
              = Returns (to_int numElems) s'
              /\ _inTxBurst s' = true)
        /\ (ret r = 0 -> Z.land flags SOAPY_SDR_END_BURST <> 0 ->
            forall fails ok rest',
              rest = fails ++ ok :: rest' ->
              Forall (fun r' => ret r' <> 0) fails ->
              ret ok = 0 ->
              exists s' data calls,
                writeStream buffs0 numElems flags timeNs timeoutUs s
                = Returns (to_int numElems) s'
                /\ _inTxBurst s' = false
                /\ _dev s'
                   = Device rest' (trace (_dev s) ++ Event data 0 :: calls)
                /\ is_end_burst_call data = false
                /\ map ev_ret calls = map ret (fails ++ [ok])
                /\ Forall (fun e => is_end_burst_call (ev_call e) = true)
                     calls))
  /\ (forall c s s',
        run c s = Some s' ->
        _inTxBurst s = true ->
        _inTxBurst s' = false ->
        exists pre e,
          trace (_dev s') = trace (_dev s) ++ pre ++ [Event e 0]
          /\ is_end_burst_call e = true).
Proof.
  split; [|split].
  - intros buffs0 numElems flags timeNs timeoutUs s result s' Hn H.
    apply writeStream_returns in H as (r & rest & _ & H).
    pose proof (to_int_small numElems Hn) as Hsmall.
    unfold SOAPY_SDR_TIMEOUT, SOAPY_SDR_STREAM_ERROR.
    destruct H as [(_ & -> & Hb)|[(_ & _ & -> & Hb)|[(_ & -> & He & Hb)
                  |(_ & -> & He & Hb & Hlast)]]];
      repeat split; intros; try done; try lia;
      unfold SOAPY_SDR_TIMEOUT, SOAPY_SDR_STREAM_ERROR in *; lia.
  - intros buffs0 numElems flags timeNs timeoutUs s r rest Hr Hdef.
    split; [|split].
    + intros Hret. now apply writeStream_failure.
    + intros Hret He.
      destruct (writeStream_success buffs0 numElems flags timeNs timeoutUs s
                  r rest Hr Hret Hdef (or_introl He)) as (s' & E).
      exists s'. split; [exact E|].
      apply writeStream_returns in E as (r0 & rest0 & Hr0 & H).
      rewrite Hr in Hr0. inversion Hr0; subst r0 rest0.
      destruct H as [(Ht & _)|[(_ & Hn & _)|[(_ & _ & _ & Hb)
                    |(_ & _ & Hn & _)]]]; try done.
      rewrite Hret in Ht. discriminate.
    + intros Hret He fails ok rest' Hrest Hfails Hok.
      now apply (writeStream_closes_burst buffs0 numElems flags timeNs
                   timeoutUs s r rest fails ok rest').
  - intros c s s' Hrun Hon Hoff. destruct c; cbn [run] in Hrun.
    + apply setupStream_keeps_burst in Hrun. congruence.
    + apply closeStream_keeps_burst in Hrun. congruence.
    + apply getStreamMTU_keeps_burst in Hrun. congruence.
    + apply activateStream_keeps_burst in Hrun. congruence.
    + now apply deactivateStream_ends_burst in Hrun.
    + apply readStream_keeps_burst in Hrun. congruence.
    + destruct (writeStream _ _ _ _ _ s) as [res s1|w s1| |] eqn:E;
        cbn in Hrun; simplify_eq.
      * apply writeStream_returns in E as (r & rest & _ & H).
        destruct H as [(_ & _ & Hb)|[(_ & _ & _ & Hb)|[(_ & _ & _ & Hb)
                      |(_ & _ & _ & _ & H)]]]; [congruence..|exact H].
      * now apply writeStream_never_throws in E.
    + apply readStreamStatus_keeps_burst in Hrun. congruence.
Qed.

(** C4, as the code has it.  A receive call whose transport transfer
    succeeds returns the [actual_count] the transport left in the
    metadata, converted to [int]: the count itself when it fits.  A
    transmit call whose transport transfer succeeds returns the element
    count the caller asked for, converted to [int]; the metadata is not
    consulted. *)
Theorem transfer_return_values :
  (forall numElems flags timeNs timeoutUs s r rest,
     _rxCmds s <> [] ->
     _rxOverflow s = false ->
     replies (_dev s) = r :: rest ->
     ret r = 0 ->
     readStream numElems flags timeNs timeoutUs s <> Undefined ->
     exists out s',
       readStream numElems flags timeNs timeoutUs s = Returns out s'
       /\ rd_ret out = to_int (r_actual_count r)
       /\ (0 <= r_actual_count r <= INT_MAX ->
           rd_ret out = r_actual_count r))
  /\ (forall buffs0 numElems flags timeNs timeoutUs s r rest,
        replies (_dev s) = r :: rest ->
        ret r = 0 ->
        writeStream buffs0 numElems flags timeNs timeoutUs s <> Undefined ->
        Z.land flags SOAPY_SDR_END_BURST = 0
        \/ Exists (fun r' => ret r' = 0) rest ->
        exists s',
          writeStream buffs0 numElems flags timeNs timeoutUs s
          = Returns (to_int numElems) s'
          /\ (0 <= numElems <= INT_MAX -> to_int numElems = numElems)).
Proof.
  split.
  - intros numElems flags timeNs timeoutUs s r rest Hq Hov Hr Hret Hdef.
    destruct (_rxCmds s) as [|cmd q] eqn:Eq; [done|].
    destruct (readStream_success numElems flags timeNs timeoutUs s cmd q r
                rest Eq Hov Hr Hret Hdef) as (u & s' & n & md & E & _).
    eexists _, s'. split; [exact E|]. cbn. split; [reflexivity|].
    apply to_int_small.
  - intros buffs0 numElems flags timeNs timeoutUs s r rest Hr Hret Hdef Hend.
    destruct (writeStream_success buffs0 numElems flags timeNs timeoutUs s r
                rest Hr Hret Hdef Hend) as (s' & E).
    exists s'. split; [exact E|]. apply to_int_small.
Qed.

(** With the float format active the whole call is blind to the caller's
    memory. *)
Lemma writeStream_float_ignores_caller buffs0 buffs0' numElems flags timeNs
    timeoutUs s :
  _txFloats s = true ->
  writeStream buffs0 numElems flags timeNs timeoutUs s
  = writeStream buffs0' numElems flags timeNs timeoutUs s.
Proof.
  intros Hf. unfold writeStream. rewrite Hf.
  rewrite (tx_convert_loop_ignores_caller _ _ buffs0 buffs0').
  reflexivity.
Qed.

(** A successful receive that does not transfer the whole of a finite
    command leaves the queue, stored count included, as it was. *)
Lemma readStream_partial_keeps_command
    numElems flags timeNs timeoutUs s cmd q r rest :
  _rxCmds s = cmd :: q ->
  _rxOverflow s = false ->
  replies (_dev s) = r :: rest ->
  ret r = 0 ->
  readStream numElems flags timeNs timeoutUs s <> Undefined ->
  wrap_u64 (cmd_numElems cmd - r_actual_count r) <> 0 ->
  exists out s',
    readStream numElems flags timeNs timeoutUs s = Returns out s'
    /\ _rxCmds s' = cmd :: q.
Proof.
  intros Hq Hov Hr Hret Hdef Hrem.
  destruct (readStream_success numElems flags timeNs timeoutUs s cmd q r rest
              Hq Hov Hr Hret Hdef) as (u & s' & n & md & E & _ & _ & Hq' & _).
  eexists _, s'. split; [exact E|].
  apply Z.eqb_neq in Hrem. rewrite Hrem, andb_false_r in Hq'. exact Hq'.
Qed.

(** *** Stream set-up *)

(** C8, as the code has it.  With [b], [l] and [t] the values of the
    buffers, buflen and transfers options (0 when absent) and [l] a
    buffer length from 0 to INT_MAX - 1023: the buffer count is 4096 for
    0, 2 for 1 and [b] otherwise; the buffer length is 4096 for 0 and
    otherwise the least multiple of 1024 not below [l], so a multiple is
    unchanged; the transfer count is the least of three numbers: [t], or
    half the buffer count when [t] is 0; the buffer count; and 32. *)
Theorem stream_tunables_normalised args b l t :
  kwarg_int args "buffers" = Some b ->
  kwarg_int args "buflen" = Some l ->
  kwarg_int args "transfers" = Some t ->
  0 <= l <= INT_MAX - 1023 ->
  exists numBuffs bufSize numXfers,
    stream_tunables args = Some (numBuffs, bufSize, numXfers)
    /\ numBuffs = (if b =? 0 then DEF_BUFF_LEN else if b =? 1 then 2 else b)
    /\ (l = 0 -> bufSize = DEF_BUFF_LEN)
    /\ (l <> 0 -> bufSize mod 1024 = 0 /\ l <= bufSize < l + 1024)
    /\ numXfers
       = Z.min (Z.min (if t =? 0 then Z.quot numBuffs 2 else t) numBuffs) 32.
Proof.
  intros Hb Hl Ht Hrange. unfold stream_tunables.
  rewrite Hb, Hl, Ht. cbn [mbind option_bind].
  set (numBuffs := if (if b =? 0 then DEF_BUFF_LEN else b) =? 1 then _ else _).
  assert (HnumBuffs :
    numBuffs = if b =? 0 then DEF_BUFF_LEN else if b =? 1 then 2 else b).
  { subst numBuffs. unfold DEF_BUFF_LEN.
    destruct (Z.eqb_spec b 0); [reflexivity|].
    destruct (Z.eqb_spec b 1) as [->|]; reflexivity. }
  set (l' := if l =? 0 then DEF_BUFF_LEN else l).
  assert (Hl' : 0 < l' <= INT_MAX - 1023).
  { subst l'. unfold DEF_BUFF_LEN, INT_MAX in *.
    destruct (Z.eqb_spec l 0); lia. }
  assert (Hround : exists bufSize,
    (if negb (Z.rem l' 1024 =? 0)
     then checked ((Z.quot l' 1024 + 1) * 1024) else Some l') = Some bufSize
    /\ bufSize mod 1024 = 0 /\ l' <= bufSize < l' + 1024).
  { rewrite Z.rem_mod_nonneg, Z.quot_div_nonneg by lia.
    pose proof (Z.div_mod l' 1024 ltac:(lia)) as Hdm.
    pose proof (Z.mod_pos_bound l' 1024 ltac:(lia)) as Hmb.
    destruct (Z.eqb_spec (l' mod 1024) 0) as [E|E]; cbn [negb].
    - exists l'. repeat split; [exact E|lia|lia].
    - exists ((l' / 1024 + 1) * 1024). unfold checked, in_int.
      unfold INT_MIN, INT_MAX in *.
      assert (Hle : (l' / 1024 + 1) * 1024 <= 2 ^ 31 - 1024).
      { assert (l' / 1024 + 1 <= 2 ^ 21 - 1); [|lia].
        assert (l' / 1024 < 2 ^ 21 - 1); [|lia].
        apply Z.div_lt_upper_bound; lia. }
      assert (Hin : (- 2 ^ 31 <=? (l' / 1024 + 1) * 1024)
                    && ((l' / 1024 + 1) * 1024 <=? 2 ^ 31 - 1) = true).
      { apply andb_true_iff. split; apply Z.leb_le; lia. }
      rewrite Hin. repeat split; [apply Z_mod_mult|lia|lia]. }
  destruct Hround as (bufSize & -> & Hmod & Hbounds). cbn [mbind option_bind].
  exists numBuffs, bufSize,
    (let x := if t =? 0 then Z.quot numBuffs 2 else t in
     let x := if numBuffs <? x then numBuffs else x in
     if 32 <? x then 32 else x).
  split; [reflexivity|]. split; [exact HnumBuffs|].
  subst l'. unfold DEF_BUFF_LEN in *. repeat split.
  - intros ->. cbn in Hbounds, Hmod.
    assert (bufSize = 1024 * (bufSize / 1024)) as Hb4
      by (pose proof (Z.div_mod bufSize 1024 ltac:(lia)); lia).
    lia.
  - destruct (Z.eqb_spec l 0); [contradiction|exact Hmod].
  - destruct (Z.eqb_spec l 0); [contradiction|lia].
  - destruct (Z.eqb_spec l 0); [contradiction|lia].
  - cbn zeta.
    destruct (Z.ltb_spec numBuffs (if t =? 0 then Z.quot numBuffs 2 else t));
      destruct (Z.ltb_spec 32 (if t =? 0 then Z.quot numBuffs 2 else t));
      destruct (Z.ltb_spec 32 numBuffs); lia.
Qed.

(** C10. When the buffers option is absent or reads as 0, and the call
    gets as far as configuring the transport (a valid channel selection, a
    supported format, tunables that are defined), the buffer count that
    bladerf_sync_config receives is DEF_BUFF_LEN, that is 4096, and not
    DEF_NUM_BUFFS, that is 32. *)
Theorem setupStream_default_buffer_count
    direction format channels args s r rest :
  args !! "buffers" = None
  \/ (exists text, args !! "buffers" = Some text /\ atoi text = Some 0) ->
  channels = [] \/ channels = [0] ->
  format = "CF32" \/ format = "CS16" ->
  stream_tunables args <> None ->
  replies (_dev s) = r :: rest ->
  exists bufSize numXfers s',
    stream_tunables args = Some (DEF_BUFF_LEN, bufSize, numXfers)
    /\ reached (setupStream direction format channels args s) = Some s'
    /\ trace (_dev s') !! length (trace (_dev s))
       = Some (Event (bladerf_sync_config (_dir2mod direction)
                        BLADERF_FORMAT_SC16_Q11_META 4096
                        (wrap_u32 bufSize) (wrap_u32 numXfers) 1000)
                 (ret r))
    /\ DEF_BUFF_LEN = 4096
    /\ DEF_BUFF_LEN <> DEF_NUM_BUFFS.
Proof.
  intros Hbuffers Hch Hfmt Hdef Hr.
  assert (Hk : kwarg_int args "buffers" = Some 0).
  { unfold kwarg_int.
    destruct Hbuffers as [->|(text & -> & Hatoi)]; [reflexivity|exact Hatoi]. }
  destruct (stream_tunables args) as [[[numBuffs bufSize] numXfers]|] eqn:Et;
    [|done].
  assert (HnumBuffs : numBuffs = DEF_BUFF_LEN).
  { unfold stream_tunables in Et. rewrite Hk in Et.
    cbn [mbind option_bind] in Et.
    destruct (kwarg_int args "buflen"); cbn [mbind option_bind] in Et;
      [|discriminate].
    destruct (if negb _ then _ else _); cbn [mbind option_bind] in Et;
      [|discriminate].
    destruct (kwarg_int args "transfers"); cbn [mbind option_bind] in Et;
      [|discriminate].
    now inversion Et. }
  subst numBuffs.
  assert (Hgate :
    (1 <? length channels)%nat
    || ((0 <? length channels)%nat
        && negb (bool_decide (channels !! 0%nat = Some 0))) = false)
    by (destruct Hch as [->| ->]; reflexivity).
  assert (Hformat : negb (String.eqb format "CF32" || String.eqb format "CS16")
                    = false)
    by (destruct Hfmt as [->| ->]; reflexivity).
  unfold setupStream. rewrite Hgate, Hformat, Et. unfold invoke at 1.
  rewrite Hr. cbn iota.
  set (c := bladerf_sync_config _ _ _ _ _ _).
  assert (Hhere : forall more,
            (trace (_dev s) ++ Event c (ret r) :: more)
              !! length (trace (_dev s))
            = Some (Event (bladerf_sync_config (_dir2mod direction)
                             BLADERF_FORMAT_SC16_Q11_META 4096
                             (wrap_u32 bufSize) (wrap_u32 numXfers) 1000)
                      (ret r)))
    by (intros more; apply list_lookup_middle; reflexivity).
  exists bufSize, numXfers.
  destruct (negb (ret r =? 0)).
  { eexists. split; [reflexivity|]. split; [reflexivity|].
    split; [apply (Hhere [])|]. split; done. }
  unfold invoke. cbn [answered set_dev _dev replies].
  destruct rest as [|r2 rest2].
  { eexists. split; [reflexivity|]. split; [reflexivity|].
    split; [apply (Hhere [])|]. split; done. }
  destruct (negb (ret r2 =? 0)).
  { eexists. split; [reflexivity|]. split; [reflexivity|].
    split; [|split; done].
    cbn. rewrite <- app_assoc. apply Hhere. }
  eexists. split; [reflexivity|]. split; [reflexivity|].
  split; [|split; done].
  destruct (direction =? SOAPY_SDR_RX), (direction =? SOAPY_SDR_TX); cbn;
    rewrite <- app_assoc; apply Hhere.
Qed.

(** *** More on stream set-up and tear-down *)

Lemma checked_in_int x v : checked x = Some v -> v = x /\ in_int v = true.
Proof.
  unfold checked. destruct (in_int x) eqn:E; [|discriminate].
  intros H. inversion H; subst. now split.
Qed.

Lemma atoi_in_int text v : atoi text = Some v -> in_int v = true.
Proof.
  unfold atoi. intros H.
  destruct (skip_spaces text) as [|a rest];
    [|destruct (Ascii.eqb_spec a "-"); [|destruct (Ascii.eqb_spec a "+")]];
    subst; try (apply checked_in_int in H as [_ H]; exact H).
  repeat case_match; apply checked_in_int in H as [_ H]; exact H.
Qed.

Lemma kwarg_int_in_int args key v :
  kwarg_int args key = Some v -> in_int v = true.
Proof.
  unfold kwarg_int. destruct (args !! key) as [text|].
  - apply atoi_in_int.
  - intros H. now inversion H.
Qed.

(** X1. Whatever the options and the transport, the tunables that
    setupStream computes, when they are defined, satisfy: the buffer count
    is neither 0 nor 1; the buffer length is a multiple of 1024; the
    transfer count exceeds neither 32 nor the buffer count; and all three
    are values of type [int]. *)
Theorem stream_tunables_invariants args numBuffs bufSize numXfers :
  stream_tunables args = Some (numBuffs, bufSize, numXfers) ->
  numBuffs <> 0 /\ numBuffs <> 1
  /\ Z.rem bufSize 1024 = 0
  /\ numXfers <= 32 /\ numXfers <= numBuffs
  /\ in_int numBuffs = true /\ in_int bufSize = true
  /\ in_int numXfers = true.
Proof.
  unfold stream_tunables. intros H.
  destruct (kwarg_int args "buffers") as [b|] eqn:Hb; [|discriminate].
  cbn [mbind option_bind] in H.
  destruct (kwarg_int args "buflen") as [l|] eqn:Hl; [|discriminate].
  cbn [mbind option_bind] in H.
  set (l' := if l =? 0 then DEF_BUFF_LEN else l) in H.
  destruct (if negb (Z.rem l' 1024 =? 0) then _ else Some l')
    as [bs|] eqn:Hbs; [|discriminate].
  cbn [mbind option_bind] in H.
  destruct (kwarg_int args "transfers") as [t|] eqn:Ht; [|discriminate].
  cbn [mbind option_bind] in H. inversion H; subst; clear H.
  apply kwarg_int_in_int in Hb, Hl, Ht.
  unfold in_int, INT_MIN, INT_MAX in *.
  apply andb_true_iff in Hb as [Hb1 Hb2], Hl as [Hl1 Hl2], Ht as [Ht1 Ht2].
  apply Z.leb_le in Hb1, Hb2, Hl1, Hl2, Ht1, Ht2.
  assert (Hbufs : Z.rem bufSize 1024 = 0
                  /\ - 2 ^ 31 <= bufSize <= 2 ^ 31 - 1).
  { destruct (Z.eqb_spec (Z.rem l' 1024) 0) as [E|E]; cbn [negb] in Hbs.
    - inversion Hbs; subst. split; [exact E|].
      subst l'. unfold DEF_BUFF_LEN. destruct (l =? 0); lia.
    - apply checked_in_int in Hbs as [-> Hin].
      split; [apply Z.rem_mul; lia|].
      unfold in_int, INT_MIN, INT_MAX in Hin.
      apply andb_true_iff in Hin as [H1 H2].
      apply Z.leb_le in H1, H2. lia. }
  destruct Hbufs as [Hrem Hrange].
  unfold DEF_BUFF_LEN.
  set (nb := if (if b =? 0 then 4096 else b) =? 1
             then (if b =? 0 then 4096 else b) + 1
             else if b =? 0 then 4096 else b).
  assert (Hnb : nb <> 0 /\ nb <> 1 /\ - 2 ^ 31 <= nb <= 2 ^ 31 - 1).
  { subst nb. destruct (Z.eqb_spec b 0); [cbn; lia|].
    destruct (Z.eqb_spec b 1); lia. }
  destruct Hnb as (Hnb0 & Hnb1 & Hnbr).
  assert (Hq : - 2 ^ 31 <= Z.quot nb 2 <= 2 ^ 31 - 1).
  { destruct (Z.le_gt_cases 0 nb).
    - rewrite Z.quot_div_nonneg by lia.
      pose proof (Z.div_mod nb 2 ltac:(lia)).
      pose proof (Z.mod_pos_bound nb 2 ltac:(lia)). lia.
    - pose proof (Z.quot_opp_l nb 2 ltac:(lia)) as Ho.
      assert (Z.quot nb 2 = - Z.quot (- nb) 2) as -> by lia.
      rewrite Z.quot_div_nonneg by lia.
      pose proof (Z.div_mod (- nb) 2 ltac:(lia)).
      pose proof (Z.mod_pos_bound (- nb) 2 ltac:(lia)). lia. }
  set (x := if t =? 0 then Z.quot nb 2 else t).
  assert (Hx : - 2 ^ 31 <= x <= 2 ^ 31 - 1)
    by (subst x; destruct (t =? 0); lia).
  repeat split; try done.
  - destruct (Z.ltb_spec nb x); destruct (Z.ltb_spec 32 nb);
      destruct (Z.ltb_spec 32 x); lia.
  - destruct (Z.ltb_spec nb x); destruct (Z.ltb_spec 32 nb);
      destruct (Z.ltb_spec 32 x); lia.
  - apply andb_true_iff. split; apply Z.leb_le; lia.
  - apply andb_true_iff. split; apply Z.leb_le; lia.
  - apply andb_true_iff. split; apply Z.leb_le;
      destruct (Z.ltb_spec nb x); destruct (Z.ltb_spec 32 nb);
      destruct (Z.ltb_spec 32 x); lia.
Qed.

(** X2. A channel selection other than the empty one and the single
    channel 0 makes setupStream throw before it looks at anything else: the
    engine is untouched and the transport is not invoked. *)
Theorem setupStream_rejects_channels direction format channels args s :
  channels <> [] ->
  channels <> [0] ->
  setupStream direction format channels args s
  = Throws "setupStream invalid channel selection" s.
Proof.
  intros Hne H0. unfold setupStream.
  destruct channels as [|c [|c' more]]; [done| |reflexivity].
  assert (Hc : bool_decide ([c] !! 0%nat = Some 0) = false).
  { apply bool_decide_eq_false_2. cbn. intros E. inversion E. now subst. }
  now rewrite Hc.
Qed.

(** X3. With an admissible channel selection, a format other than "CF32"
    and "CS16" makes setupStream throw, naming the format; the engine is
    untouched and the transport is not invoked. *)
Theorem setupStream_rejects_format direction format channels args s :
  channels = [] \/ channels = [0] ->
  format <> "CF32" ->
  format <> "CS16" ->
  setupStream direction format channels args s
  = Throws ("setupStream invalid format " +:+ format) s.
Proof.
  intros Hch H32 H16. unfold setupStream.
  apply String.eqb_neq in H32, H16. rewrite H32, H16.
  destruct Hch as [->| ->]; reflexivity.
Qed.

(** The way through setupStream once channels and format are accepted. *)
Lemma setupStream_gate_open direction format channels args s :
  channels = [] \/ channels = [0] ->
  format = "CF32" \/ format = "CS16" ->
  setupStream direction format channels args s
  = match stream_tunables args with
    | None => Undefined
    | Some (numBuffs, bufSize, numXfers) =>
        match invoke (bladerf_sync_config (_dir2mod direction)
                        BLADERF_FORMAT_SC16_Q11_META (wrap_u32 numBuffs)
                        (wrap_u32 bufSize) (wrap_u32 numXfers) 1000) s with
        | None => Waiting s
        | Some (r, s) =>
            if negb (ret r =? 0) then
              Throws ("setupStream() " +:+ _err2str (ret r))
                (logf SOAPY_SDR_ERROR "bladerf_sync_config() returned %d"
                   [ArgInt (ret r)] s)
            else
              match invoke (bladerf_enable_module (_dir2mod direction) true)
                      s with
              | None => Waiting s
              | Some (r, s) =>
                  if negb (ret r =? 0) then
                    Throws ("setupStream() " +:+ _err2str (ret r))
                      (logf SOAPY_SDR_ERROR
                         "bladerf_enable_module(true) returned %d"
                         [ArgInt (ret r)] s)
                  else
                    Returns direction
                      (set_cachedBuffSizes
                         (<[direction := bufSize]>
                            (_cachedBuffSizes
                               (if direction =? SOAPY_SDR_TX
                                then set_txFloats (String.eqb format "CF32")
                                       (set_txUnderflow false
                                          (if direction =? SOAPY_SDR_RX
                                           then set_rxFloats
                                                  (String.eqb format "CF32")
                                                  (set_rxOverflow false s)
                                           else s))
                                else if direction =? SOAPY_SDR_RX
                                     then set_rxFloats
                                            (String.eqb format "CF32")
                                            (set_rxOverflow false s)
                                     else s)))
                         (if direction =? SOAPY_SDR_TX
                          then set_txFloats (String.eqb format "CF32")
                                 (set_txUnderflow false
                                    (if direction =? SOAPY_SDR_RX
                                     then set_rxFloats
                                            (String.eqb format "CF32")
                                            (set_rxOverflow false s)
                                     else s))
                          else if direction =? SOAPY_SDR_RX
                               then set_rxFloats (String.eqb format "CF32")
                                      (set_rxOverflow false s)
                               else s))
              end
        end
    end.
Proof.
  intros Hch Hfmt. unfold setupStream.
  assert (Hgate :
    (1 <? length channels)%nat
    || ((0 <? length channels)%nat
        && negb (bool_decide (channels !! 0%nat = Some 0))) = false)
    by (destruct Hch as [->| ->]; reflexivity).
  assert (Hformat : negb (String.eqb format "CF32" || String.eqb format "CS16")
                    = false)
    by (destruct Hfmt as [->| ->]; reflexivity).
  now rewrite Hgate, Hformat.
Qed.

(** The buffer length that setupStream computes is a value of type
    [int]. *)
Lemma stream_tunables_bufSize_int args numBuffs bufSize numXfers :
  stream_tunables args = Some (numBuffs, bufSize, numXfers) ->
  in_int bufSize = true.
Proof.
  unfold stream_tunables. intros H.
  destruct (kwarg_int args "buffers") as [b|]; [|discriminate].
  cbn [mbind option_bind] in H.
  destruct (kwarg_int args "buflen") as [l|] eqn:Hl; [|discriminate].
  cbn [mbind option_bind] in H.
  apply kwarg_int_in_int in Hl.
  set (l' := if l =? 0 then DEF_BUFF_LEN else l) in H.
  assert (Hl' : in_int l' = true)
    by (subst l'; destruct (l =? 0); [reflexivity|exact Hl]).
  destruct (if negb (Z.rem l' 1024 =? 0) then _ else Some l')
    as [l''|] eqn:Hn; [|discriminate].
  cbn [mbind option_bind] in H.
  destruct (kwarg_int args "transfers") as [t|]; [|discriminate].
  cbn [mbind option_bind] in H. inversion H; subst.
  destruct (negb (Z.rem l' 1024 =? 0)).
  - now apply checked_in_int in Hn as [_ Hn].
  - now inversion Hn; subst.
Qed.

(** X4. A set-up that the transport accepts (both the configuration and
    the enabling return 0) returns the direction as the handle, after
    exactly two transport calls: bladerf_sync_config with the three
    tunables and a timeout of 1000, then bladerf_enable_module(true).
    getStreamMTU on that handle then returns the normalised buffer length
    converted to [size_t]: the length itself when it is not negative, and
    the length plus 2^64 when it is (a negative buflen option gives a
    negative multiple of 1024).  For the receive direction the float flag
    records the format and the overflow latch is cleared while the
    transmit settings stay; for the transmit direction it is the other way
    round.  Neither the command queue nor the burst flag is touched. *)
Theorem setupStream_then_getStreamMTU
    direction format channels args s numBuffs bufSize numXfers r1 r2 rest :
  channels = [] \/ channels = [0] ->
  format = "CF32" \/ format = "CS16" ->
  stream_tunables args = Some (numBuffs, bufSize, numXfers) ->
  replies (_dev s) = r1 :: r2 :: rest ->
  ret r1 = 0 ->
  ret r2 = 0 ->
  exists s',
    setupStream direction format channels args s = Returns direction s'
    /\ getStreamMTU direction s'
       = Returns (if bufSize <? 0 then 2 ^ 64 + bufSize else bufSize) s'
    /\ _dev s'
       = Device rest
           (trace (_dev s)
            ++ [Event (bladerf_sync_config (_dir2mod direction)
                         BLADERF_FORMAT_SC16_Q11_META (wrap_u32 numBuffs)
                         (wrap_u32 bufSize) (wrap_u32 numXfers) 1000) 0;
                Event (bladerf_enable_module (_dir2mod direction) true) 0])
    /\ (direction = SOAPY_SDR_RX ->
        _rxFloats s' = String.eqb format "CF32" /\ _rxOverflow s' = false
        /\ _txFloats s' = _txFloats s /\ _txUnderflow s' = _txUnderflow s)
    /\ (direction = SOAPY_SDR_TX ->
        _txFloats s' = String.eqb format "CF32" /\ _txUnderflow s' = false
        /\ _rxFloats s' = _rxFloats s /\ _rxOverflow s' = _rxOverflow s)
    /\ _rxCmds s' = _rxCmds s
    /\ _inTxBurst s' = _inTxBurst s.
Proof.
  intros Hch Hfmt Ht Hr H1 H2.
  rewrite (setupStream_gate_open _ _ _ _ _ Hch Hfmt), Ht.
  unfold invoke. rewrite Hr. cbn [answered set_dev _dev replies].
  rewrite H1, H2. cbn [Z.eqb negb].
  eexists. split; [reflexivity|]. split; [|split; [|split; [|split]]].
  - unfold getStreamMTU. cbn [_cachedBuffSizes set_cachedBuffSizes].
    rewrite lookup_insert_eq. f_equal.
    apply stream_tunables_bufSize_int in Ht.
    unfold in_int, INT_MIN, INT_MAX in Ht. unfold wrap_u64.
    destruct (Z.ltb_spec bufSize 0).
    + rewrite <- (Z.mod_add bufSize 1 (2 ^ 64)) by lia.
      rewrite Z.mod_small; lia.
    + rewrite Z.mod_small; lia.
  - destruct (direction =? SOAPY_SDR_TX), (direction =? SOAPY_SDR_RX); cbn;
      now rewrite H1, H2, <- app_assoc.
  - intros ->. cbn. repeat split.
  - intros ->. cbn. repeat split.
  - destruct (direction =? SOAPY_SDR_TX), (direction =? SOAPY_SDR_RX);
      split; reflexivity.
Qed.

(** X5. When the transport refuses the configuration, setupStream logs
    the status and throws without enabling the module; when it refuses the
    enabling, setupStream logs and throws after the two calls.  Either way
    nothing of the set-up is recorded: the cached buffer lengths, the
    format flags and the latches are as before. *)
Theorem setupStream_transport_refusal
    direction format channels args s numBuffs bufSize numXfers r rest :
  channels = [] \/ channels = [0] ->
  format = "CF32" \/ format = "CS16" ->
  stream_tunables args = Some (numBuffs, bufSize, numXfers) ->
  replies (_dev s) = r :: rest ->
  (ret r <> 0
   \/ exists r2 rest2, ret r = 0 /\ rest = r2 :: rest2 /\ ret r2 <> 0) ->
  exists code text calls s',
    setupStream direction format channels args s
    = Throws ("setupStream() " +:+ _err2str code) s'
    /\ code <> 0
    /\ logged s' = logged s ++ [Log SOAPY_SDR_ERROR text [ArgInt code]]
    /\ trace (_dev s')
       = trace (_dev s)
         ++ Event (bladerf_sync_config (_dir2mod direction)
                     BLADERF_FORMAT_SC16_Q11_META (wrap_u32 numBuffs)
                     (wrap_u32 bufSize) (wrap_u32 numXfers) 1000) (ret r)
            :: calls
    /\ (ret r <> 0 -> calls = [])
    /\ (ret r = 0 ->
        calls = [Event (bladerf_enable_module (_dir2mod direction) true)
                   code])
    /\ _cachedBuffSizes s' = _cachedBuffSizes s
    /\ _rxFloats s' = _rxFloats s /\ _txFloats s' = _txFloats s
    /\ _rxOverflow s' = _rxOverflow s
    /\ _txUnderflow s' = _txUnderflow s.
Proof.
  intros Hch Hfmt Ht Hr Hfail.
  rewrite (setupStream_gate_open _ _ _ _ _ Hch Hfmt), Ht.
  unfold invoke. rewrite Hr. cbn [answered set_dev _dev replies].
  destruct Hfail as [Hne|(r2 & rest2 & H0 & -> & Hne)].
  - apply Z.eqb_neq in Hne as Hb. rewrite Hb. cbn [negb].
    exists (ret r), "bladerf_sync_config() returned %d", []. eexists.
    split; [reflexivity|]. repeat split; try done.
  - rewrite H0. cbn [Z.eqb negb].
    apply Z.eqb_neq in Hne as Hb. rewrite Hb. cbn [negb].
    exists (ret r2), "bladerf_enable_module(true) returned %d",
      [Event (bladerf_enable_module (_dir2mod direction) true) (ret r2)].
    eexists. split; [reflexivity|]. repeat split; try done.
    cbn. now rewrite H0, <- app_assoc.
Qed.

(** X6. closeStream disables the module of the handle's direction with
    one transport call.  It returns when the transport returns 0 and
    otherwise logs and throws.  It is no deactivation: a pending receive
    command stays queued, an open burst stays open, and the cached buffer
    length stays. *)
Theorem closeStream_only_disables stream s r rest :
  replies (_dev s) = r :: rest ->
  exists s',
    reached (closeStream stream s) = Some s'
    /\ (ret r = 0 -> closeStream stream s = Returns tt s')
    /\ (ret r <> 0 ->
        closeStream stream s
        = Throws ("closeStream() " +:+ _err2str (ret r)) s'
        /\ logged s'
           = logged s
             ++ [Log SOAPY_SDR_ERROR
                   "bladerf_enable_module(false) returned %s"
                   [ArgStr (_err2str (ret r))]])
    /\ _dev s'
       = Device rest
           (trace (_dev s)
            ++ [Event (bladerf_enable_module (_dir2mod stream) false)
                  (ret r)])
    /\ _rxCmds s' = _rxCmds s
    /\ _inTxBurst s' = _inTxBurst s
    /\ _cachedBuffSizes s' = _cachedBuffSizes s.
Proof.
  intros Hr. unfold closeStream, invoke. rewrite Hr.
  destruct (Z.eqb_spec (ret r) 0) as [E|E]; cbn [negb];
    eexists; (split; [reflexivity|]); repeat split; try done.
Qed.

(** *** More on the receive path *)

Lemma pop_all_empties q : pop_all q = [].
Proof. induction q as [|c q IH]; [reflexivity|exact IH]. Qed.

(** A call that gets past the queue and the latch makes one request, the
    one [rx_request] describes, and the engine it reaches differs from the
    one it found in the queue, the latch, the scratch buffer, the transport
    and the log at most. *)
Lemma readStream_reaches numElems flags timeNs timeoutUs s cmd q r rest s' :
  _rxCmds s = cmd :: q ->
  _rxOverflow s = false ->
  replies (_dev s) = r :: rest ->
  reached (readStream numElems flags timeNs timeoutUs s) = Some s' ->
  _dev s'
  = Device rest
      (trace (_dev s)
       ++ [Event (rx_request rx_ticks_of_ns cmd numElems timeoutUs
                    (_rxFloats s)) (ret r)])
  /\ (_rxCmds s' = cmd :: q \/ _rxCmds s' = q)
  /\ _rxFloats s' = _rxFloats s
  /\ _txFloats s' = _txFloats s
  /\ _txConvBuff s' = _txConvBuff s
  /\ _inTxBurst s' = _inTxBurst s
  /\ _txUnderflow s' = _txUnderflow s
  /\ _cachedBuffSizes s' = _cachedBuffSizes s.
Proof.
  intros Hq Hov Hr. unfold readStream, invoke, rx_request.
  rewrite Hq, Hov, Hr. cbn -[wrap_u64 wrap_u32 to_int Z.mul].
  assert (Hmd : forall c : bool,
    md_set_timestamp (rx_ticks_of_ns (cmd_timeNs cmd))
      (if c then md_or_flags BLADERF_META_FLAG_RX_NOW (Metadata 0 0 0 0)
       else Metadata 0 0 0 0)
    = Metadata (rx_ticks_of_ns (cmd_timeNs cmd))
        (if c then BLADERF_META_FLAG_RX_NOW else 0) 0 0)
    by (intros []; reflexivity).
  rewrite Hmd.
  destruct (_rxFloats s) eqn:Hfl; cbn -[wrap_u64 wrap_u32 to_int Z.mul].
  - destruct (store_prefix (r_samples r) (_rxConvBuff s)) as [b|];
      cbn -[wrap_u64 wrap_u32 to_int Z.mul]; [|discriminate].
    rewrite Hfl.
    destruct (ret r =? BLADERF_ERR_TIMEOUT);
      [|destruct (negb (ret r =? 0));
        [|match goal with
          | |- context [rx_convert_loop ?n ?i ?c ?o] =>
              destruct (rx_convert_loop n i c o) as [fl|]
          end; cbn -[wrap_u64 wrap_u32 to_int Z.mul]; [|discriminate]]];
      repeat match goal with
             | |- context [if ?c then _ else _] => destruct c
             end;
      cbn -[wrap_u64 wrap_u32 to_int Z.mul]; intros H; inversion H; subst;
      cbn -[wrap_u64 wrap_u32 to_int Z.mul]; rewrite ?Hq, ?Hfl;
      repeat split; auto.
  - rewrite Hfl.
    destruct (ret r =? BLADERF_ERR_TIMEOUT);
      [|destruct (negb (ret r =? 0))];
      repeat match goal with
             | |- context [if ?c then _ else _] => destruct c
             end;
      cbn -[wrap_u64 wrap_u32 to_int Z.mul]; intros H; inversion H; subst;
      cbn -[wrap_u64 wrap_u32 to_int Z.mul]; rewrite ?Hq, ?Hfl;
      repeat split; auto.
Qed.

Lemma reached_defined {A} (o : outcome A) :
  o <> Undefined -> exists s', reached o = Some s'.
Proof. destruct o; intros H; try done; cbn; eauto. Qed.

(** C6.  Let a receive call K find a command queued and no overflow
    latched, and let the transport accept its transfer and report an
    overrun.  Call K makes that one transfer, consuming the reply, and
    returns the transferred count; it sets the latch and records the
    position [timestamp + actual_count] of the overrun.  If the command
    queue is not empty after it, the next call K+1, whatever its
    arguments, returns SOAPY_SDR_OVERFLOW with exactly the HAS_TIME flag
    and the recorded position converted to nanoseconds; it leaves the
    engine as it was but for the cleared latch, so the transport is not
    invoked and the queue is as it was.  The call K+2 after that makes
    exactly one transfer, asking what the command at the front asks and
    consuming the transport's next reply; if that transfer succeeds
    without a new overrun, the call returns the count it transferred with
    the HAS_TIME flag and the transfer's timestamp in nanoseconds, the
    latch staying clear. *)
Theorem overrun_reported_by_next_call
    numElems flags timeNs timeoutUs s cmd q r rest :
  _rxCmds s = cmd :: q ->
  _rxOverflow s = false ->
  replies (_dev s) = r :: rest ->
  ret r = 0 ->
  Z.land (r_status r) BLADERF_META_STATUS_OVERRUN <> 0 ->
  readStream numElems flags timeNs timeoutUs s <> Undefined ->
  exists user s1,
    readStream numElems flags timeNs timeoutUs s
    = Returns (ReadResult (to_int (r_actual_count r)) SOAPY_SDR_HAS_TIME
                 (rx_ns_of_ticks (r_timestamp r)) user) s1
    /\ _rxOverflow s1 = true
    /\ _rxNextTicks s1 = wrap_u64 (r_timestamp r + r_actual_count r)
    /\ _dev s1
       = Device rest
           (trace (_dev s)
            ++ [Event (rx_request rx_ticks_of_ns cmd numElems timeoutUs
                         (_rxFloats s)) 0])
    /\ _rxCmds s1
       = (if (0 <? cmd_numElems cmd)
             && (wrap_u64 (cmd_numElems cmd - r_actual_count r) =? 0)
          then q else cmd :: q)
    /\ forall cmd1 q1,
         _rxCmds s1 = cmd1 :: q1 ->
         forall numElems' flags' timeNs' timeoutUs',
           readStream numElems' flags' timeNs' timeoutUs' s1
           = Returns (ReadResult SOAPY_SDR_OVERFLOW SOAPY_SDR_HAS_TIME
                        (rx_ns_of_ticks
                           (wrap_u64 (r_timestamp r + r_actual_count r)))
                        Untouched)
               (set_rxOverflow false s1)
           /\ _rxOverflow (set_rxOverflow false s1) = false
           /\ _dev (set_rxOverflow false s1) = _dev s1
           /\ _rxCmds (set_rxOverflow false s1) = cmd1 :: q1
           /\ forall numElems'' flags'' timeNs'' timeoutUs'' r2 rest2,
                rest = r2 :: rest2 ->
                readStream numElems'' flags'' timeNs'' timeoutUs''
                  (set_rxOverflow false s1) <> Undefined ->
                (exists s3,
                   reached (readStream numElems'' flags'' timeNs''
                              timeoutUs'' (set_rxOverflow false s1))
                   = Some s3
                   /\ _dev s3
                      = Device rest2
                          (trace (_dev s)
                           ++ [Event (rx_request rx_ticks_of_ns cmd
                                        numElems timeoutUs (_rxFloats s)) 0;
                               Event (rx_request rx_ticks_of_ns cmd1
                                        numElems'' timeoutUs''
                                        (_rxFloats s)) (ret r2)]))
                /\ (ret r2 = 0 ->
                    Z.land (r_status r2) BLADERF_META_STATUS_OVERRUN = 0 ->
                    exists user3 s3,
                      readStream numElems'' flags'' timeNs'' timeoutUs''
                        (set_rxOverflow false s1)
                      = Returns (ReadResult (to_int (r_actual_count r2))
                                   SOAPY_SDR_HAS_TIME
                                   (rx_ns_of_ticks (r_timestamp r2)) user3)
                          s3
                      /\ _rxOverflow s3 = false
                      /\ replies (_dev s3) = rest2).
Proof.
  intros Hq Hov Hr Hret Hbit Hdef.
  destruct (readStream_success numElems flags timeNs timeoutUs s cmd q r rest
              Hq Hov Hr Hret Hdef)
    as (user & s1 & n & md & E & Hl & Ht & Hcmds & _ & _).
  assert (Hlatch : _rxOverflow s1 = true).
  { rewrite Hl. apply Z.eqb_neq in Hbit. now rewrite Hbit. }
  assert (Hreach : reached (readStream numElems flags timeNs timeoutUs s)
                   = Some s1) by (now rewrite E).
  destruct (readStream_reaches numElems flags timeNs timeoutUs s cmd q r rest
              s1 Hq Hov Hr Hreach) as (Hdev & _ & Hfl & _).
  rewrite Hret in Hdev.
  exists user, s1.
  split; [exact E|]. split; [exact Hlatch|]. split; [exact (Ht Hlatch)|].
  split; [exact Hdev|]. split; [exact Hcmds|].
  intros cmd1 q1 Hq1 numElems' flags' timeNs' timeoutUs'.
  split.
  { rewrite (readStream_latched numElems' flags' timeNs' timeoutUs' s1);
      [now rewrite (Ht Hlatch)|rewrite Hq1; discriminate|exact Hlatch]. }
  split; [reflexivity|]. split; [reflexivity|]. split; [exact Hq1|].
  intros numElems'' flags'' timeNs'' timeoutUs'' r2 rest2 Hrest Hdef2.
  assert (Hr2 : replies (_dev (set_rxOverflow false s1)) = r2 :: rest2).
  { cbn. rewrite Hdev. exact Hrest. }
  split.
  - destruct (reached_defined _ Hdef2) as (s3 & Hs3).
    exists s3. split; [exact Hs3|].
    destruct (readStream_reaches numElems'' flags'' timeNs'' timeoutUs''
                (set_rxOverflow false s1) cmd1 q1 r2 rest2 s3 Hq1 eq_refl
                Hr2 Hs3) as (Hdev3 & _).
    rewrite Hdev3. cbn [set_rxOverflow _dev _rxFloats].
    rewrite Hdev, Hfl. cbn [trace]. now rewrite <- app_assoc.
  - intros Hret2 Hbit2.
    destruct (readStream_success numElems'' flags'' timeNs'' timeoutUs''
                (set_rxOverflow false s1) cmd1 q1 r2 rest2 Hq1 eq_refl Hr2
                Hret2 Hdef2)
      as (user3 & s3 & n3 & md3 & E3 & Hl3 & _ & _ & Hrep3 & _).
    exists user3, s3. split; [exact E3|]. split; [|exact Hrep3].
    rewrite Hl3. apply Z.eqb_eq in Hbit2. now rewrite Hbit2.
Qed.

(** X7. A receive call that finds a command at the front of the queue
    and no overflow latched makes exactly one transport call, and what it
    asks is decided by that command alone: the sample count is the
    caller's capacity, cut down to the command's stored count when that is
    not 0; the timestamp is the command's start time in ticks; the
    RX_NOW flag is set exactly when the command lacks HAS_TIME; the
    destination is the scratch buffer in float format and the caller's
    buffer otherwise; the timeout is the caller's, in milliseconds. *)
Theorem readStream_transport_request
    numElems flags timeNs timeoutUs s cmd q r rest :
  _rxCmds s = cmd :: q ->
  _rxOverflow s = false ->
  replies (_dev s) = r :: rest ->
  readStream numElems flags timeNs timeoutUs s <> Undefined ->
  exists s',
    reached (readStream numElems flags timeNs timeoutUs s) = Some s'
    /\ _dev s'
       = Device rest
           (trace (_dev s)
            ++ [Event (bladerf_sync_rx
                         (if _rxFloats s then RxConvBuff else UserBuffer)
                         (wrap_u32 (if 0 <? cmd_numElems cmd
                                    then Z.min (cmd_numElems cmd) numElems
                                    else numElems))
                         (Metadata (rx_ticks_of_ns (cmd_timeNs cmd))
                            (if Z.land (cmd_flags cmd) SOAPY_SDR_HAS_TIME
                                =? 0
                             then BLADERF_META_FLAG_RX_NOW else 0)
                            0 0)
                         (wrap_u32 (Z.quot timeoutUs 1000)))
                  (ret r)]).
Proof.
  intros Hq Hov Hr Hdef.
  destruct (reached_defined _ Hdef) as [s' Hs'].
  exists s'. split; [exact Hs'|].
  now destruct (readStream_reaches _ _ _ _ _ _ _ _ _ _ Hq Hov Hr Hs')
    as (Hd & _).
Qed.

(** X8. When the transport times out, the receive call returns
    SOAPY_SDR_TIMEOUT with the caller's flags and time set to 0, and the
    call can be repeated: the command queue and the overflow latch are as
    they were.  One reply of the transport has been used. *)
Theorem readStream_transport_timeout
    numElems flags timeNs timeoutUs s r rest :
  _rxCmds s <> [] ->
  _rxOverflow s = false ->
  replies (_dev s) = r :: rest ->
  ret r = BLADERF_ERR_TIMEOUT ->
  readStream numElems flags timeNs timeoutUs s <> Undefined ->
  exists user s',
    readStream numElems flags timeNs timeoutUs s
    = Returns (ReadResult SOAPY_SDR_TIMEOUT 0 0 user) s'
    /\ _rxCmds s' = _rxCmds s
    /\ _rxOverflow s' = false
    /\ logged s' = logged s
    /\ replies (_dev s') = rest.
Proof.
  intros Hq Hov Hr Hret. unfold readStream, invoke.
  destruct (_rxCmds s) as [|cmd q] eqn:Eq; [done|].
  rewrite Hov, Hr. cbn -[wrap_u64 wrap_u32 to_int Z.mul].
  rewrite Hret. cbn -[wrap_u64 wrap_u32 to_int Z.mul].
  destruct (_rxFloats s) eqn:Hfl; cbn -[wrap_u64 wrap_u32 to_int Z.mul].
  - destruct (store_prefix (r_samples r) (_rxConvBuff s)) as [b|];
      cbn -[wrap_u64 wrap_u32 to_int Z.mul]; [|congruence].
    intros _. do 2 eexists. split; [reflexivity|]. cbn. auto.
  - intros _. do 2 eexists. split; [reflexivity|]. cbn. auto.
Qed.

(** X9. When the transport fails with anything but a timeout, the
    receive call logs the failure and returns SOAPY_SDR_STREAM_ERROR.  A
    finite front command (stored count above 0) is then dropped from the
    queue; a continuous one (stored count 0) stays.  The overflow latch is
    not touched. *)
Theorem readStream_transport_error
    numElems flags timeNs timeoutUs s cmd q r rest :
  _rxCmds s = cmd :: q ->
  _rxOverflow s = false ->
  replies (_dev s) = r :: rest ->
  ret r <> BLADERF_ERR_TIMEOUT ->
  ret r <> 0 ->
  readStream numElems flags timeNs timeoutUs s <> Undefined ->
  exists user s',
    readStream numElems flags timeNs timeoutUs s
    = Returns (ReadResult SOAPY_SDR_STREAM_ERROR 0 0 user) s'
    /\ _rxCmds s' = (if 0 <? cmd_numElems cmd then q else cmd :: q)
    /\ _rxOverflow s' = false
    /\ logged s'
       = logged s
         ++ [Log SOAPY_SDR_ERROR "bladerf_sync_rx() returned %s"
               [ArgStr (_err2str (ret r))]]
    /\ replies (_dev s') = rest.
Proof.
  intros Hq Hov Hr Ht H0. unfold readStream, invoke.
  rewrite Hq, Hov, Hr. cbn -[wrap_u64 wrap_u32 to_int Z.mul].
  apply Z.eqb_neq in Ht, H0. rewrite Ht, H0.
  cbn -[wrap_u64 wrap_u32 to_int Z.mul].
  destruct (_rxFloats s) eqn:Hfl; cbn -[wrap_u64 wrap_u32 to_int Z.mul].
  - destruct (store_prefix (r_samples r) (_rxConvBuff s)) as [b|];
      cbn -[wrap_u64 wrap_u32 to_int Z.mul]; [|congruence].
    intros _. do 2 eexists. split; [reflexivity|].
    destruct (0 <? cmd_numElems cmd); cbn; rewrite ?Hq; auto.
  - intros _. do 2 eexists. split; [reflexivity|].
    destruct (0 <? cmd_numElems cmd); cbn; rewrite ?Hq; auto.
Qed.

(** What a receive call leaves alone, whichever way it goes. *)
Lemma readStream_frame numElems flags timeNs timeoutUs s s' :
  reached (readStream numElems flags timeNs timeoutUs s) = Some s' ->
  (_rxCmds s' = _rxCmds s \/ _rxCmds s' = tail (_rxCmds s))
  /\ _rxFloats s' = _rxFloats s
  /\ _txFloats s' = _txFloats s
  /\ _txConvBuff s' = _txConvBuff s
  /\ _inTxBurst s' = _inTxBurst s
  /\ _txUnderflow s' = _txUnderflow s
  /\ _cachedBuffSizes s' = _cachedBuffSizes s.
Proof.
  intros H.
  destruct (_rxCmds s) as [|cmd q] eqn:Hq.
  { rewrite (readStream_unarmed _ _ _ _ _ Hq) in H.
    inversion H; subst. rewrite Hq. auto 10. }
  destruct (_rxOverflow s) eqn:Hov.
  { rewrite readStream_latched in H by (done || congruence).
    inversion H; subst. cbn. rewrite Hq. auto 10. }
  destruct (replies (_dev s)) as [|r rest] eqn:Hr.
  { unfold readStream, invoke in H. rewrite Hq, Hov, Hr in H.
    inversion H; subst. rewrite Hq. auto 10. }
  destruct (readStream_reaches _ _ _ _ _ _ _ _ _ _ Hq Hov Hr H)
    as (_ & Hqueue & Hrest).
  split; [|exact Hrest]. cbn [tail]. exact Hqueue.
Qed.

(** X10. Whatever a receive call does, it removes at most the front
    command and rewrites none: the queue it leaves is the queue it found
    or that queue without its head.  And it keeps out of the transmit
    side and of the set-up: the transmit format, scratch buffer, burst
    flag and underflow latch, the receive format and the cached buffer
    lengths are unchanged. *)
Theorem readStream_queue_discipline numElems flags timeNs timeoutUs s s' :
  reached (readStream numElems flags timeNs timeoutUs s) = Some s' ->
  (_rxCmds s' = _rxCmds s \/ _rxCmds s' = tail (_rxCmds s))
  /\ _rxFloats s' = _rxFloats s
  /\ _txFloats s' = _txFloats s
  /\ _txConvBuff s' = _txConvBuff s
  /\ _inTxBurst s' = _inTxBurst s
  /\ _txUnderflow s' = _txUnderflow s
  /\ _cachedBuffSizes s' = _cachedBuffSizes s.
Proof. apply readStream_frame. Qed.

(** X11. Activation goes to the back of the queue and does not disturb
    the command in service: on an engine with a command queued, a receive
    call after [enqueue c] has the outcome of the same call before it,
    with [c] joining the back of the queue it leaves. *)
Theorem readStream_serves_front_first numElems flags timeNs timeoutUs s c :
  _rxCmds s <> [] ->
  readStream numElems flags timeNs timeoutUs (enqueue c s)
  = map_engine (enqueue c) (readStream numElems flags timeNs timeoutUs s).
Proof.
  intros Hq. destruct s as [cmds ov ticks rxf rxb txf txb burst und sizes
                             [script tr] lg].
  cbn in Hq. destruct cmds as [|cmd q]; [done|].
  unfold readStream, enqueue, invoke.
  cbn -[wrap_u64 wrap_u32 to_int Z.mul].
  destruct ov; [reflexivity|].
  destruct script as [|r rest]; [reflexivity|].
  cbn -[wrap_u64 wrap_u32 to_int Z.mul].
  destruct rxf; cbn -[wrap_u64 wrap_u32 to_int Z.mul].
  - destruct (store_prefix (r_samples r) rxb) as [b|];
      cbn -[wrap_u64 wrap_u32 to_int Z.mul]; [|reflexivity].
    destruct (ret r =? BLADERF_ERR_TIMEOUT); [reflexivity|].
    destruct (negb (ret r =? 0)).
    { destruct (0 <? cmd_numElems cmd); reflexivity. }
    match goal with
    | |- context [rx_convert_loop ?n ?i ?b0 ?o] =>
        destruct (rx_convert_loop n i b0 o) as [fl|]
    end; cbn -[wrap_u64 wrap_u32 to_int Z.mul]; [|reflexivity].
    repeat match goal with
           | |- context [if ?x then _ else _] => destruct x
           end; reflexivity.
  - destruct (ret r =? BLADERF_ERR_TIMEOUT); [reflexivity|].
    destruct (negb (ret r =? 0)).
    { destruct (0 <? cmd_numElems cmd); reflexivity. }
    repeat match goal with
           | |- context [if ?x then _ else _] => destruct x
           end; reflexivity.
Qed.

(** The receive conversion loop is a map over the scratch buffer, as
    long as the buffer is long enough. *)
Lemma rx_convert_loop_map n : forall i conv out,
  (i + n <= length conv)%nat ->
  rx_convert_loop n i conv out
  = Some (out ++ map fixed_to_float (take n (drop i conv))).
Proof.
  induction n as [|n IH]; intros i conv out Hlen; cbn [rx_convert_loop].
  - cbn. now rewrite app_nil_r.
  - destruct (conv !! i) as [x|] eqn:Hx.
    + rewrite IH by lia. rewrite (drop_S conv x i Hx). cbn.
      now rewrite <- app_assoc.
    + apply lookup_ge_None_1 in Hx. lia.
Qed.

Lemma rx_convert_loop_short n : forall i conv out,
  (i <= length conv < i + n)%nat ->
  rx_convert_loop n i conv out = None.
Proof.
  induction n as [|n IH]; intros i conv out Hlen; [lia|].
  cbn [rx_convert_loop].
  destruct (conv !! i) as [x|] eqn:Hx; [|reflexivity].
  apply IH. apply lookup_lt_Some in Hx. lia.
Qed.

(** X12. In float format a successful receive hands the caller
    [2 * n] floats, [n] being the count it asked of the transport (the
    caller's capacity cut down to the command's stored count), not the
    count the transport reports: float [i] is word [i] of the scratch
    buffer divided by 2000, the scratch buffer holding the transport's
    samples followed by whatever it held before.  If the scratch buffer is
    shorter than [2 * n] words the loop runs off its end. *)
Theorem readStream_float_output
    numElems flags timeNs timeoutUs s cmd q r rest :
  _rxCmds s = cmd :: q ->
  _rxOverflow s = false ->
  replies (_dev s) = r :: rest ->
  ret r = 0 ->
  _rxFloats s = true ->
  (length (r_samples r) <= length (_rxConvBuff s))%nat ->
  let n := Z.to_nat
             (wrap_u64 (2 * (if 0 <? cmd_numElems cmd
                             then Z.min (cmd_numElems cmd) numElems
                             else numElems))) in
  let conv := r_samples r ++ drop (length (r_samples r)) (_rxConvBuff s) in
  ((n <= length (_rxConvBuff s))%nat ->
   exists s',
     readStream numElems flags timeNs timeoutUs s
     = Returns (ReadResult (to_int (r_actual_count r)) SOAPY_SDR_HAS_TIME
                  (rx_ns_of_ticks (r_timestamp r))
                  (WroteCF32 (map fixed_to_float (take n conv)))) s'
     /\ _rxConvBuff s' = conv)
  /\ ((length (_rxConvBuff s) < n)%nat ->
      readStream numElems flags timeNs timeoutUs s = Undefined).
Proof.
  intros Hq Hov Hr Hret Hfl Hfit n conv.
  assert (Hlen : length conv = length (_rxConvBuff s)).
  { subst conv. rewrite length_app, length_drop. lia. }
  assert (Hstore : store_prefix (r_samples r) (_rxConvBuff s) = Some conv).
  { unfold store_prefix. apply Nat.leb_le in Hfit. now rewrite Hfit. }
  unfold readStream, invoke.
  rewrite Hq, Hov, Hr. cbn -[wrap_u64 wrap_u32 to_int Z.mul].
  rewrite Hret, Hfl. cbn -[wrap_u64 wrap_u32 to_int Z.mul].
  rewrite Hstore. cbn -[wrap_u64 wrap_u32 to_int Z.mul]. rewrite Hfl.
  fold n. split.
  - intros Hn. rewrite (rx_convert_loop_map n 0 conv []) by lia.
    cbn -[wrap_u64 wrap_u32 to_int Z.mul]. rewrite drop_0.
    destruct (0 <? cmd_numElems cmd);
      [destruct (wrap_u64 (cmd_numElems cmd - r_actual_count r) =? 0)|];
      destruct (Z.land (r_status r) BLADERF_META_STATUS_OVERRUN =? 0);
      cbn -[wrap_u64 wrap_u32 to_int Z.mul];
      eexists; split; reflexivity.
  - intros Hn. rewrite (rx_convert_loop_short n 0 conv []) by lia.
    reflexivity.
Qed.

(** X13. deactivateStream with flags 0 on the receive side empties the
    command queue and returns 0 without a transport call, and a receive
    call made after it returns SOAPY_SDR_TIMEOUT; with any other flags it
    returns SOAPY_SDR_NOT_SUPPORTED and leaves everything, the queue
    included, as it was. *)
Theorem deactivateStream_receive flags s :
  (flags = 0 ->
   deactivateStream SOAPY_SDR_RX flags s = Returns 0 (set_rxCmds [] s)
   /\ forall numElems flags' timeNs timeoutUs,
        readStream numElems flags' timeNs timeoutUs (set_rxCmds [] s)
        = Returns (ReadResult SOAPY_SDR_TIMEOUT flags' timeNs Untouched)
            (set_rxCmds [] s))
  /\ (flags <> 0 ->
      forall stream,
        deactivateStream stream flags s = Returns SOAPY_SDR_NOT_SUPPORTED s).
Proof.
  split.
  - intros ->. split.
    + unfold deactivateStream. cbn. now rewrite pop_all_empties.
    + intros. now apply readStream_unarmed.
  - intros Hf stream. unfold deactivateStream.
    apply Z.eqb_neq in Hf. now rewrite Hf.
Qed.

(** X14. deactivateStream with flags 0 on the transmit side does
    nothing at all while no burst is open.  While a burst is open it runs
    the burst-end loop: when the transport's answers are failures followed
    by a success, it returns 0 with the burst closed, having made one
    burst-end transfer per answer. *)
Theorem deactivateStream_transmit s :
  (_inTxBurst s = false ->
   deactivateStream SOAPY_SDR_TX 0 s = Returns 0 s)
  /\ (_inTxBurst s = true ->
      forall fails ok rest,
        replies (_dev s) = fails ++ ok :: rest ->
        Forall (fun r => ret r <> 0) fails ->
        ret ok = 0 ->
        exists calls s',
          deactivateStream SOAPY_SDR_TX 0 s = Returns 0 s'
          /\ _inTxBurst s' = false
          /\ _dev s' = Device rest (trace (_dev s) ++ calls)
          /\ map ev_ret calls = map ret (fails ++ [ok])
          /\ Forall (fun e => is_end_burst_call (ev_call e) = true) calls
          /\ _rxCmds s' = _rxCmds s).
Proof.
  split.
  - intros Hb. unfold deactivateStream. cbn. now rewrite Hb.
  - intros Hb fails ok rest Hscript Hfails Hok.
    unfold deactivateStream. cbn. rewrite Hb.
    destruct (sendTxEndBurst_until_success s fails ok rest Hscript Hfails
                Hok) as (calls & E & Hrets & Hcalls).
    rewrite E. exists calls. eexists. split; [reflexivity|].
    repeat split; done.
Qed.

(** *** More on the transmit path *)

(** The burst-end loop changes the transport and the log, nothing else,
    and every call it makes is a burst-end transfer. *)
Lemma sendTxEndBurst_loop_frame script : forall md s s',
  md_flags md = BLADERF_META_FLAG_TX_BURST_END ->
  reached (sendTxEndBurst_loop script md s) = Some s' ->
  s' = set_logged (logged s') (set_dev (_dev s') s)
  /\ exists calls,
       trace (_dev s') = trace (_dev s) ++ calls
       /\ Forall (fun e => is_end_burst_call (ev_call e) = true) calls.
Proof.
  induction script as [|r script IH]; intros md s s' Hmd H;
    cbn [sendTxEndBurst_loop] in H.
  - inversion H; subst. split; [now destruct s'|].
    exists []. split; [now rewrite app_nil_r|constructor].
  - set (c := bladerf_sync_tx _ _ _ _ _) in H.
    assert (Hc : is_end_burst_call c = true) by (cbn; now rewrite Hmd).
    destruct (ret r =? 0).
    { inversion H; subst. split; [now destruct s|].
      exists [Event c (ret r)]. split; [reflexivity|].
      constructor; [exact Hc|constructor]. }
    cbn [negb] in H.
    destruct (ret r =? BLADERF_ERR_TIMEOUT);
      apply IH in H as (Hs' & calls & Htr & Hcalls); try exact Hmd;
      (split; [rewrite Hs'; now destruct s|]);
      exists (Event c (ret r) :: calls);
      (split; [rewrite Htr; cbn; now rewrite <- app_assoc|]);
      constructor; done.
Qed.

Lemma sendTxEndBurst_frame s s' :
  reached (sendTxEndBurst s) = Some s' ->
  s' = set_inTxBurst (_inTxBurst s')
         (set_logged (logged s') (set_dev (_dev s') s))
  /\ exists calls,
       trace (_dev s') = trace (_dev s) ++ calls
       /\ Forall (fun e => is_end_burst_call (ev_call e) = true) calls.
Proof.
  unfold sendTxEndBurst. intros H.
  destruct (sendTxEndBurst_loop _ _ s) as [u s0|w s0| |s0] eqn:E;
    cbn in H; try discriminate; injection H as <-;
    (destruct (sendTxEndBurst_loop_frame (replies (_dev s))
                 (Metadata 0 BLADERF_META_FLAG_TX_BURST_END 0 0) s s0
                 eq_refl) as (Hs0 & calls & Htr & Hcalls);
     [now rewrite E|]);
    (split; [|now exists calls]).
  all: rewrite Hs0; destruct s; reflexivity.
Qed.

(** A transmit call that gets to the transport: the engine it reaches
    differs from the one it found in the scratch buffer, the burst flag,
    the underflow latch, the transport and the log at most; its first new
    transport call is the one [tx_request] describes, and any further ones
    are burst-end transfers. *)
Lemma writeStream_reaches
    buffs0 numElems flags timeNs timeoutUs s r rest s' :
  replies (_dev s) = r :: rest ->
  reached (writeStream buffs0 numElems flags timeNs timeoutUs s) = Some s' ->
  s' = set_txUnderflow (_txUnderflow s')
         (set_inTxBurst (_inTxBurst s')
            (set_txConvBuff (_txConvBuff s')
               (set_logged (logged s') (set_dev (_dev s') s))))
  /\ (if _txFloats s
      then tx_convert_loop (Z.to_nat (wrap_u64 (2 * numElems))) 0 TxConvBuff
             buffs0 s
           = Some (set_txConvBuff (_txConvBuff s') s)
      else _txConvBuff s' = _txConvBuff s)
  /\ exists more,
       trace (_dev s')
       = trace (_dev s)
         ++ Event (tx_request tx_ticks_of_ns (_txFloats s) (_inTxBurst s)
                     (if _txFloats s then _txConvBuff s' else buffs0)
                     numElems flags timeNs timeoutUs) (ret r)
            :: more
       /\ Forall (fun e => is_end_burst_call (ev_call e) = true) more
       /\ (ret r <> 0 \/ Z.land flags SOAPY_SDR_END_BURST = 0 ->
           more = [] /\ replies (_dev s') = rest).
Proof.
  intros Hr. unfold writeStream.
  destruct (if _txFloats s then _ else Some s) as [s0|] eqn:Hconv;
    [|discriminate].
  assert (Hs0 : s0 = set_txConvBuff (_txConvBuff s0) s).
  { destruct (_txFloats s).
    - now apply tx_convert_loop_frame in Hconv.
    - inversion Hconv; subst. now destruct s0. }
  assert (Hdev : _dev s0 = _dev s) by (now rewrite Hs0).
  assert (Hb : _inTxBurst s0 = _inTxBurst s) by (now rewrite Hs0).
  assert (Hcv : if _txFloats s
                then tx_convert_loop (Z.to_nat (wrap_u64 (2 * numElems))) 0
                       TxConvBuff buffs0 s
                     = Some (set_txConvBuff (_txConvBuff s0) s)
                else _txConvBuff s0 = _txConvBuff s).
  { destruct (_txFloats s).
    - now rewrite <- Hs0.
    - now inversion Hconv. }
  assert (Hcall :
    bladerf_sync_tx (if _txFloats s then TxConvBuff else UserBuffer)
      (deref (if _txFloats s then TxConvBuff else UserBuffer) buffs0 s0)
      (wrap_u32 numElems)
      (if negb (_inTxBurst s0)
       then md_or_flags BLADERF_META_FLAG_TX_BURST_START
              (if negb (Z.land flags SOAPY_SDR_HAS_TIME =? 0)
               then md_set_timestamp (tx_ticks_of_ns timeNs)
                      (Metadata 0 0 0 0)
               else md_or_flags BLADERF_META_FLAG_TX_NOW (Metadata 0 0 0 0))
       else if negb (Z.land flags SOAPY_SDR_HAS_TIME =? 0)
            then md_set_timestamp (tx_ticks_of_ns timeNs) (Metadata 0 0 0 0)
            else md_or_flags BLADERF_META_FLAG_TX_NOW (Metadata 0 0 0 0))
      (wrap_u32 (Z.quot timeoutUs 1000))
    = tx_request tx_ticks_of_ns (_txFloats s) (_inTxBurst s)
        (if _txFloats s then _txConvBuff s0 else buffs0)
        numElems flags timeNs timeoutUs).
  { unfold tx_request. rewrite Hb.
    destruct (_txFloats s), (_inTxBurst s),
      (Z.land flags SOAPY_SDR_HAS_TIME =? 0); reflexivity. }
  cbv zeta. rewrite Hcall. clear Hcall.
  set (c := tx_request _ _ _ _ _ _ _ _).
  unfold invoke. rewrite Hdev, Hr.
  destruct (Z.eqb_spec (ret r) BLADERF_ERR_TIMEOUT) as [Et|Et].
  { intros H. inversion H; subst; clear H. cbn.
    split; [rewrite Hs0; destruct s; reflexivity|].
    split; [exact Hcv|]. exists []. rewrite Hdev. repeat split; done. }
  destruct (Z.eqb_spec (ret r) 0) as [E0|E0]; cbn [negb].
  2:{ intros H. inversion H; subst; clear H. cbn.
      split; [rewrite Hs0; destruct s; reflexivity|].
      split; [exact Hcv|]. exists []. rewrite Hdev. repeat split; done. }
  destruct (Z.eqb_spec (Z.land flags SOAPY_SDR_END_BURST) 0) as [Ee|Ee];
    cbn [negb].
  { intros H. inversion H; subst; clear H.
    destruct (negb (Z.land (r_status r) _ =? 0)); cbn;
      (split; [rewrite Hs0; destruct s; reflexivity|]);
      (split; [exact Hcv|]); exists []; rewrite Hdev; repeat split; done. }
  set (s1 := set_inTxBurst true (answered c r rest s0)).
  destruct (sendTxEndBurst s1) as [u s2|w s2| |s2] eqn:Eb;
    cbn [reached]; try discriminate.
  - intros H. inversion H; subst s'; clear H.
    destruct (sendTxEndBurst_frame s1 s2) as (Hs2 & calls & Htr & Hcalls);
      [now rewrite Eb|].
    assert (Hcv2 : _txConvBuff s2 = _txConvBuff s0) by (now rewrite Hs2).
    destruct (negb (Z.land (r_status r) _ =? 0)); cbn;
      rewrite ?Hcv2;
      (split; [rewrite Hs2; subst s1; rewrite Hs0; destruct s;
               reflexivity|]);
      (split; [exact Hcv|]); exists calls;
      (split; [rewrite Htr; subst s1; cbn; rewrite Hdev;
               now rewrite <- app_assoc|]);
      (split; [exact Hcalls|]); intros [?|?]; done.
  - exfalso. exact (proj1 (sendTxEndBurst_never_throws s1 w s2) Eb).
  - intros H. inversion H; subst s'; clear H.
    destruct (sendTxEndBurst_frame s1 s2) as (Hs2 & calls & Htr & Hcalls);
      [now rewrite Eb|].
    assert (Hcv2 : _txConvBuff s2 = _txConvBuff s0) by (now rewrite Hs2).
    rewrite ?Hcv2.
    split; [rewrite Hs2; subst s1; rewrite Hs0; destruct s;
            reflexivity|].
    split; [exact Hcv|]. exists calls.
    split; [rewrite Htr; subst s1; cbn; rewrite Hdev;
            now rewrite <- app_assoc|].
    split; [exact Hcalls|]. intros [?|?]; done.
Qed.

(** What a transmit call that returns has done to the underflow latch. *)
Lemma writeStream_underflow
    buffs0 numElems flags timeNs timeoutUs s r rest result s' :
  replies (_dev s) = r :: rest ->
  writeStream buffs0 numElems flags timeNs timeoutUs s = Returns result s' ->
  _txUnderflow s'
  = (if (ret r =? 0)
        && negb (Z.land (r_status r) BLADERF_META_STATUS_UNDERRUN =? 0)
     then true else _txUnderflow s).
Proof.
  intros Hr. unfold writeStream.
  destruct (if _txFloats s then _ else Some s) as [s0|] eqn:Hconv;
    [|discriminate].
  assert (Hs0 : s0 = set_txConvBuff (_txConvBuff s0) s).
  { destruct (_txFloats s).
    - now apply tx_convert_loop_frame in Hconv.
    - inversion Hconv; subst. now destruct s0. }
  assert (Hdev : _dev s0 = _dev s) by (now rewrite Hs0).
  assert (Hu : _txUnderflow s0 = _txUnderflow s) by (now rewrite Hs0).
  unfold invoke. rewrite Hdev, Hr.
  destruct (ret r =? BLADERF_ERR_TIMEOUT) eqn:Et.
  { intros H. inversion H; subst. apply Z.eqb_eq in Et.
    rewrite Et. cbn. exact Hu. }
  destruct (ret r =? 0) eqn:E0; cbn [negb andb].
  2:{ intros H. inversion H; subst. cbn. exact Hu. }
  destruct (negb (Z.land flags SOAPY_SDR_END_BURST =? 0)).
  - match goal with
    | |- context [sendTxEndBurst ?x] =>
        destruct (sendTxEndBurst x) as [u s2|w s2| |s2] eqn:Eb;
        try discriminate;
        destruct (sendTxEndBurst_frame x s2) as (Hs2 & _);
        [now rewrite Eb|]
    end.
    intros H. inversion H; subst.
    destruct (negb (Z.land (r_status r) _ =? 0)); cbn; [reflexivity|].
    rewrite Hs2. cbn. exact Hu.
  - intros H. inversion H; subst.
    destruct (negb (Z.land (r_status r) _ =? 0)); cbn; [reflexivity|].
    exact Hu.
Qed.

(** In native format nothing in a transmit call is undefined. *)
Lemma writeStream_native_defined buffs0 numElems flags timeNs timeoutUs s :
  _txFloats s = false ->
  writeStream buffs0 numElems flags timeNs timeoutUs s <> Undefined.
Proof.
  intros Hf. unfold writeStream, invoke. rewrite Hf.
  destruct (replies (_dev s)) as [|r rest]; [discriminate|].
  destruct (ret r =? BLADERF_ERR_TIMEOUT); [discriminate|].
  destruct (negb (ret r =? 0)); [discriminate|].
  destruct (negb (Z.land flags SOAPY_SDR_END_BURST =? 0)); [|discriminate].
  match goal with
  | |- context [sendTxEndBurst ?x] =>
      destruct (sendTxEndBurst x) as [u s2|w s2| |s2] eqn:Eb;
      try discriminate;
      exfalso; exact (proj2 (sendTxEndBurst_never_throws x "" x) Eb)
  end.
Qed.

(** X15. A transmit call that gets to the transport makes one data
    transfer, and any transport call after it within the same call is a
    burst-end transfer.  The data transfer announces the caller's element
    count and the caller's timeout in milliseconds; with HAS_TIME it
    carries the caller's time in ticks and no TX_NOW flag, without it the
    TX_NOW flag and timestamp 0; and it carries the burst-start flag
    exactly when no burst was open on entry.  In native format the
    transport is handed the caller's memory and the scratch buffer is not
    written. *)
Theorem writeStream_transport_request
    buffs0 numElems flags timeNs timeoutUs s r rest :
  replies (_dev s) = r :: rest ->
  writeStream buffs0 numElems flags timeNs timeoutUs s <> Undefined ->
  exists s' payload more,
    reached (writeStream buffs0 numElems flags timeNs timeoutUs s) = Some s'
    /\ trace (_dev s')
       = trace (_dev s)
         ++ Event (bladerf_sync_tx
                     (if _txFloats s then TxConvBuff else UserBuffer)
                     payload (wrap_u32 numElems)
                     (Metadata
                        (if Z.land flags SOAPY_SDR_HAS_TIME =? 0 then 0
                         else tx_ticks_of_ns timeNs)
                        (Z.lor
                           (if Z.land flags SOAPY_SDR_HAS_TIME =? 0
                            then BLADERF_META_FLAG_TX_NOW else 0)
                           (if _inTxBurst s then 0
                            else BLADERF_META_FLAG_TX_BURST_START))
                        0 0)
                     (wrap_u32 (Z.quot timeoutUs 1000))) (ret r)
            :: more
    /\ Forall (fun e => is_end_burst_call (ev_call e) = true) more
    /\ (ret r <> 0 \/ Z.land flags SOAPY_SDR_END_BURST = 0 -> more = [])
    /\ (_txFloats s = false ->
        payload = buffs0 /\ _txConvBuff s' = _txConvBuff s).
Proof.
  intros Hr Hdef. destruct (reached_defined _ Hdef) as [s' Hs'].
  destruct (writeStream_reaches _ _ _ _ _ _ _ _ _ Hr Hs')
    as (_ & Hcv & more & Htr & Hmore & Hnone).
  exists s', (if _txFloats s then _txConvBuff s' else buffs0), more.
  split; [exact Hs'|]. split; [exact Htr|]. split; [exact Hmore|].
  split; [intros H; now apply Hnone|].
  intros Hf. rewrite Hf in *. now split.
Qed.

(** What a transmit call leaves alone, whichever way it goes. *)
Lemma writeStream_frame buffs0 numElems flags timeNs timeoutUs s s' :
  reached (writeStream buffs0 numElems flags timeNs timeoutUs s) = Some s' ->
  _rxCmds s' = _rxCmds s
  /\ _rxOverflow s' = _rxOverflow s
  /\ _rxNextTicks s' = _rxNextTicks s
  /\ _rxFloats s' = _rxFloats s
  /\ _rxConvBuff s' = _rxConvBuff s
  /\ _txFloats s' = _txFloats s
  /\ _cachedBuffSizes s' = _cachedBuffSizes s.
Proof.
  intros H. destruct (replies (_dev s)) as [|r rest] eqn:Hr.
  - unfold writeStream, invoke in H.
    destruct (if _txFloats s then _ else Some s) as [s0|] eqn:Hconv;
      [|discriminate].
    assert (Hs0 : s0 = set_txConvBuff (_txConvBuff s0) s).
    { destruct (_txFloats s).
      - now apply tx_convert_loop_frame in Hconv.
      - inversion Hconv; subst. now destruct s0. }
    assert (Hdev : _dev s0 = _dev s) by (now rewrite Hs0).
    rewrite Hdev, Hr in H. inversion H; subst s'.
    rewrite Hs0. repeat split.
  - destruct (writeStream_reaches _ _ _ _ _ _ _ _ _ Hr H) as (Hs' & _).
    rewrite Hs'. repeat split.
Qed.

(** X16. Whatever a transmit call does, it keeps out of the receive side
    and of the set-up: the command queue, the overflow latch and its
    recorded position, the receive format and scratch buffer, the transmit
    format and the cached buffer lengths are unchanged. *)
Theorem writeStream_leaves_receive_side
    buffs0 numElems flags timeNs timeoutUs s s' :
  reached (writeStream buffs0 numElems flags timeNs timeoutUs s) = Some s' ->
  _rxCmds s' = _rxCmds s
  /\ _rxOverflow s' = _rxOverflow s
  /\ _rxNextTicks s' = _rxNextTicks s
  /\ _rxFloats s' = _rxFloats s
  /\ _rxConvBuff s' = _rxConvBuff s
  /\ _txFloats s' = _txFloats s
  /\ _cachedBuffSizes s' = _cachedBuffSizes s.
Proof. apply writeStream_frame. Qed.

(** X17. Two transmit calls in native format, the first finding no burst
    open, succeeding and not asking for the end of the burst: the first
    data transfer carries the burst-start flag, the second does not. *)
Theorem second_transmit_continues_burst
    b1 n1 f1 t1 to1 b2 n2 f2 t2 to2 s r1 r2 rest :
  _txFloats s = false ->
  _inTxBurst s = false ->
  replies (_dev s) = r1 :: r2 :: rest ->
  ret r1 = 0 ->
  Z.land f1 SOAPY_SDR_END_BURST = 0 ->
  exists s1 s2 md1 md2 more,
    writeStream b1 n1 f1 t1 to1 s = Returns (to_int n1) s1
    /\ reached (writeStream b2 n2 f2 t2 to2 s1) = Some s2
    /\ trace (_dev s2)
       = trace (_dev s)
         ++ Event (bladerf_sync_tx UserBuffer b1 (wrap_u32 n1) md1
                     (wrap_u32 (Z.quot to1 1000))) 0
            :: Event (bladerf_sync_tx UserBuffer b2 (wrap_u32 n2) md2
                        (wrap_u32 (Z.quot to2 1000))) (ret r2)
            :: more
    /\ Z.land (md_flags md1) BLADERF_META_FLAG_TX_BURST_START
       = BLADERF_META_FLAG_TX_BURST_START
    /\ Z.land (md_flags md2) BLADERF_META_FLAG_TX_BURST_START = 0.
Proof.
  intros Hf Hb Hr H1 He.
  assert (Hdef1 : writeStream b1 n1 f1 t1 to1 s <> Undefined)
    by (now apply writeStream_native_defined).
  destruct (writeStream_success b1 n1 f1 t1 to1 s r1 (r2 :: rest) Hr H1 Hdef1
              (or_introl He)) as (s1 & E1).
  assert (R1 : reached (writeStream b1 n1 f1 t1 to1 s) = Some s1)
    by (now rewrite E1).
  destruct (writeStream_reaches _ _ _ _ _ _ _ _ _ Hr R1)
    as (Hs1 & Hcv1 & more1 & Htr1 & _ & Hnone1).
  destruct (Hnone1 (or_intror He)) as [-> Hrest1].
  destruct (writeStream_returns _ _ _ _ _ _ _ _ E1)
    as (r1' & rest1' & Hr' & Hcase).
  rewrite Hr in Hr'. inversion Hr'; subst r1' rest1'.
  assert (Hb1 : _inTxBurst s1 = true).
  { destruct Hcase as [(Ht & _)|[(_ & Hn & _)|[(_ & _ & _ & Hb1)
                      |(_ & _ & Hn & _)]]]; try done.
    rewrite H1 in Ht. discriminate. }
  assert (Hf1 : _txFloats s1 = false) by (rewrite Hs1; exact Hf).
  assert (Hdef2 : writeStream b2 n2 f2 t2 to2 s1 <> Undefined)
    by (now apply writeStream_native_defined).
  destruct (reached_defined _ Hdef2) as [s2 R2].
  destruct (writeStream_reaches _ _ _ _ _ _ _ _ _ Hrest1 R2)
    as (_ & _ & more & Htr2 & _ & _).
  rewrite Hf, Hb in Htr1. rewrite Hf1, Hb1, Htr1, H1 in Htr2.
  unfold tx_request in Htr2. rewrite <- app_assoc in Htr2.
  do 5 eexists. split; [exact E1|]. split; [exact R2|].
  split; [exact Htr2|]. cbn [md_flags].
  split; destruct (Z.land f1 SOAPY_SDR_HAS_TIME =? 0),
           (Z.land f2 SOAPY_SDR_HAS_TIME =? 0); reflexivity.
Qed.

(** X18. A transmit call that succeeds while the transport reports an
    underrun latches the underflow; the status query then reports
    SOAPY_SDR_UNDERFLOW once, clearing the latch, and 0 the next time.  A
    transmit call that returns without both a success and an underrun
    report leaves the latch as it was. *)
Theorem underflow_reported_once
    buffs0 numElems flags timeNs timeoutUs s r rest result s1 :
  replies (_dev s) = r :: rest ->
  writeStream buffs0 numElems flags timeNs timeoutUs s = Returns result s1 ->
  (ret r = 0 ->
   Z.land (r_status r) BLADERF_META_STATUS_UNDERRUN <> 0 ->
   _txUnderflow s1 = true
   /\ readStreamStatus s1
      = Returns (StatusResult SOAPY_SDR_UNDERFLOW 0 0)
          (set_txUnderflow false s1)
   /\ readStreamStatus (set_txUnderflow false s1)
      = Returns (StatusResult 0 0 0) (set_txUnderflow false s1))
  /\ (ret r <> 0
      \/ Z.land (r_status r) BLADERF_META_STATUS_UNDERRUN = 0 ->
      _txUnderflow s1 = _txUnderflow s).
Proof.
  intros Hr H. pose proof (writeStream_underflow _ _ _ _ _ _ _ _ _ _ Hr H)
    as Hu.
  split.
  - intros H0 Hbit. apply Z.eqb_neq in Hbit.
    rewrite H0, Hbit in Hu. cbn in Hu.
    split; [exact Hu|]. unfold readStreamStatus. rewrite Hu. now split.
  - intros [H0|Hbit].
    + apply Z.eqb_neq in H0. now rewrite H0 in Hu.
    + apply Z.eqb_eq in Hbit. rewrite Hbit, andb_false_r in Hu. exact Hu.
Qed.

(** X19. In float format the payload a transmit call hands to the
    transport is computed from the scratch buffer as the call found it:
    with [n] twice the element count, word [j] of the payload for [j < n]
    is [int16_t(f * 2000)], [f] being the float that the scratch buffer
    held in its words [2j] and [2j+1] on entry; the words from [n] on and
    the length are as on entry. *)
Theorem writeStream_float_payload
    buffs0 numElems flags timeNs timeoutUs s r rest s' :
  _txFloats s = true ->
  replies (_dev s) = r :: rest ->
  reached (writeStream buffs0 numElems flags timeNs timeoutUs s) = Some s' ->
  exists payload md more,
    trace (_dev s')
    = trace (_dev s)
      ++ Event (bladerf_sync_tx TxConvBuff payload (wrap_u32 numElems) md
                  (wrap_u32 (Z.quot timeoutUs 1000))) (ret r)
         :: more
    /\ length payload = length (_txConvBuff s)
    /\ (forall j, (j < Z.to_nat (wrap_u64 (2 * numElems)))%nat ->
        exists f v,
          read_float (_txConvBuff s) j = Some f
          /\ float_to_fixed f = Some v
          /\ payload !! j = Some v)
    /\ (forall j, (Z.to_nat (wrap_u64 (2 * numElems)) <= j)%nat ->
        payload !! j = _txConvBuff s !! j).
Proof.
  intros Hf Hr H.
  destruct (writeStream_reaches _ _ _ _ _ _ _ _ _ Hr H)
    as (_ & Hcv & more & Htr & _).
  rewrite Hf in Hcv, Htr. unfold tx_request in Htr.
  destruct (tx_convert_loop_in_place _ 0 buffs0 s _ (_txConvBuff s)
              eq_refl (fun j _ => eq_refl) Hcv)
    as (Hlen & _ & Hdone & Habove).
  cbn [_txConvBuff set_txConvBuff] in Hlen, Hdone, Habove.
  do 3 eexists. split; [exact Htr|]. split; [exact Hlen|].
  split.
  - intros j Hj. apply Hdone. lia.
  - intros j Hj. apply Habove. lia.
Qed.

(** *** The cached buffer length *)





End Streaming.

Lemma readStream_empty_queue_witness :
  exists out,
    readStream ticks_at_1MHz ns_at_1MHz error_text 16 0 0 1000 idle
    = Returns out idle
    /\ rd_ret out = SOAPY_SDR_TIMEOUT
    /\ rd_flags out = 0
    /\ rd_timeNs out = 0
    /\ rd_buff out = Untouched.
Proof.
  apply (readStream_empty_queue ticks_at_1MHz ns_at_1MHz error_text).
  reflexivity.
Defined.

Lemma overrun_reported_by_next_call_witness :
  exists user s1 user3 s3,
    readStream ticks_at_1MHz ns_at_1MHz error_text 100 0 0 1000000
      overrun_then_data
    = Returns (ReadResult 40 SOAPY_SDR_HAS_TIME 5000000 user) s1
    /\ readStream ticks_at_1MHz ns_at_1MHz error_text 100 0 0 1000000 s1
       = Returns (ReadResult SOAPY_SDR_OVERFLOW SOAPY_SDR_HAS_TIME 5040000
                    Untouched) (set_rxOverflow false s1)
    /\ trace (_dev (set_rxOverflow false s1)) = trace (_dev s1)
    /\ readStream ticks_at_1MHz ns_at_1MHz error_text 100 0 0 1000000
         (set_rxOverflow false s1)
       = Returns (ReadResult 60 SOAPY_SDR_HAS_TIME 5040000 user3) s3
    /\ _rxOverflow s3 = false
    /\ replies (_dev s3) = [].
Proof.
  destruct (overrun_reported_by_next_call ticks_at_1MHz ns_at_1MHz
              error_text 100 0 0 1000000 overrun_then_data hundred []
              (overran 5000 40) [transferred 5040 60])
    as (user & s1 & E & _ & _ & Hdev & Hcmds & Hnext);
    [reflexivity|reflexivity|reflexivity|reflexivity
    |vm_compute; discriminate|vm_compute; discriminate|].
  destruct (Hnext hundred [] Hcmds 100 0 0 1000000)
    as (E2 & _ & Hsame & _ & Hthird).
  destruct (Hthird 100 0 0 1000000 (transferred 5040 60) [] eq_refl)
    as (_ & Hok).
  { pose proof E as E'. vm_compute in E'. injection E' as _ Hs1.
    rewrite <- Hs1. vm_compute. discriminate. }
  destruct (Hok eq_refl eq_refl) as (user3 & s3 & E3 & Hl3 & Hrep3).
  exists user, s1, user3, s3.
  split; [exact E|]. split; [exact E2|].
  split; [now rewrite Hsame|]. split; [exact E3|]. split; assumption.
Defined.

Lemma sendTxEndBurst_retries_until_success_witness :
  exists calls,
    sendTxEndBurst busy_then_broken
    = Returns tt
        (set_inTxBurst false
           (set_logged
              (logged busy_then_broken
               ++ end_burst_errors [timed_out; io_error])
              (set_dev (Device [] (trace (_dev busy_then_broken) ++ calls))
                 busy_then_broken)))
    /\ map ev_ret calls = [BLADERF_ERR_TIMEOUT; -5; 0]
    /\ Forall (fun e => is_end_burst_call (ev_call e) = true) calls.
Proof.
  apply (proj1 (sendTxEndBurst_retries_until_success busy_then_broken)
           [timed_out; io_error] (transferred 0 0) []).
  - reflexivity.
  - repeat constructor; discriminate.
  - reflexivity.
Defined.

(** A transport error other than a timeout does not end the retry loop:
    with one such error and nothing after it, sendTxEndBurst is still in
    the loop and [_inTxBurst] is still set; with a success after it, the
    transport has been invoked a second time.  The transfer announces two
    samples. *)
Lemma sendTxEndBurst_hard_error_is_retried :
  (exists s',
     sendTxEndBurst (with_replies [io_error] (set_inTxBurst true idle))
     = Waiting s'
     /\ _inTxBurst s' = true)
  /\ (exists s',
        sendTxEndBurst
          (with_replies [io_error; transferred 0 0]
             (set_inTxBurst true idle))
        = Returns tt s'
        /\ trace (_dev s')
           = [Event first_attempt (-5); Event first_attempt 0]).
Proof.
  split; eexists; split; reflexivity.
Qed.

(** *** The closed statements about the receive path *)

(** C1, on the code.  A command for 100 samples is served by three calls
    that transfer 40, 35 and 25 samples.  The specification has the stored count
    go 100, 60, 25 and the command leave the queue on the third call.  Each
    call works on a copy of the front command (line 182): the command in
    the queue still asks for 100 samples after every one of the three
    calls, and it is still queued at the end. *)
Theorem readStream_partials_leave_command_queued :
  exists o1 s1 o2 s2 o3 s3,
    readStream ticks_at_1MHz ns_at_1MHz error_text 100 0 0 1000000
      three_partials = Returns o1 s1
    /\ rd_ret o1 = 40 /\ _rxCmds s1 = [hundred]
    /\ readStream ticks_at_1MHz ns_at_1MHz error_text 100 0 0 1000000 s1
       = Returns o2 s2
    /\ rd_ret o2 = 35 /\ _rxCmds s2 = [hundred]
    /\ readStream ticks_at_1MHz ns_at_1MHz error_text 100 0 0 1000000 s2
       = Returns o3 s3
    /\ rd_ret o3 = 25 /\ _rxCmds s3 = [hundred]
    /\ cmd_numElems hundred = 100.
Proof.
  do 6 eexists.
  split; [reflexivity|]. split; [reflexivity|]. split; [reflexivity|].
  split; [reflexivity|]. split; [reflexivity|]. split; [reflexivity|].
  split; [reflexivity|]. split; [reflexivity|]. split; reflexivity.
Qed.

Lemma transfer_return_values_witness :
  (exists out s',
     readStream ticks_at_1MHz ns_at_1MHz error_text 100 0 0 1000000
       (with_replies [transferred 0 40] (set_rxCmds [hundred] idle))
     = Returns out s'
     /\ rd_ret out = 40)
  /\ (exists s',
        writeStream ticks_at_1MHz [0; 0] 1 0 0 1000000
          (with_replies [transferred 0 1] idle)
        = Returns 1 s').
Proof.
  pose proof (transfer_return_values ticks_at_1MHz ns_at_1MHz ticks_at_1MHz
                error_text) as [Hrx Htx].
  split.
  - destruct (Hrx 100 0 0 1000000
                (with_replies [transferred 0 40] (set_rxCmds [hundred] idle))
                (transferred 0 40) [])
      as (out & s' & E & _ & Hret);
      [discriminate|reflexivity|reflexivity|reflexivity|discriminate|].
    exists out, s'. split; [exact E|]. apply Hret. unfold INT_MAX. cbn. lia.
  - destruct (Htx [0; 0] 1 0 0 1000000
                (with_replies [transferred 0 1] idle) (transferred 0 1) [])
      as (s' & E & _);
      [reflexivity|reflexivity|discriminate|left; reflexivity|].
    exists s'. exact E.
Defined.

(** A transmit whose transport transfer succeeds while the metadata
    reports 40 transferred samples returns the 100 it was asked to send. *)
Lemma writeStream_returns_requested_count :
  r_actual_count (transferred 0 40) = 40
  /\ exists s',
       writeStream ticks_at_1MHz [] 100 0 0 1000000
         (with_replies [transferred 0 40] idle)
       = Returns 100 s'.
Proof. split; [reflexivity|]. eexists. reflexivity. Qed.

(** *** The closed statements about the transmit path *)

(** C2, on the code.  The float format is active, the scratch buffer holds
    zeros and the caller hands over the floats 1.0 and 0.5 for one
    element.  The specification has the transport receive 2000 and 1000.  The
    conversion loop reads through [samples], which by then points to the
    scratch buffer itself (lines 278 and 283): the transport receives
    zeros. *)
Theorem writeStream_converts_scratch_buffer :
  specified_tx_payload one_then_half 2 = Some [2000; 1000]
  /\ exists s' md,
       writeStream ticks_at_1MHz one_then_half 1 0 0 1000000
         (with_replies [transferred 0 1] float_transmitter)
       = Returns 1 s'
       /\ trace (_dev s')
          = [Event (bladerf_sync_tx TxConvBuff [0; 0; 0; 0] 1 md 1000) 0].
Proof.
  split; [reflexivity|]. do 2 eexists. split; reflexivity.
Qed.

Lemma burst_flag_discipline_witness :
  (exists s',
     writeStream ticks_at_1MHz [0; 0] 1 0 0 1000000
       (with_replies [timed_out] idle)
     = Returns SOAPY_SDR_TIMEOUT s'
     /\ _inTxBurst s' = _inTxBurst (with_replies [timed_out] idle))
  /\ (exists s' pre e,
        writeStream ticks_at_1MHz [0; 0] 1 SOAPY_SDR_END_BURST 0 1000000
          (with_replies [transferred 0 1; transferred 0 0] idle)
        = Returns 1 s'
        /\ _inTxBurst s' = false
        /\ trace (_dev s') = pre ++ [Event e 0]
        /\ is_end_burst_call e = true).
Proof.
  split.
  - eexists. split; [reflexivity|].
    refine (proj1 (proj1 (burst_flag_discipline ticks_at_1MHz ns_at_1MHz
                            ticks_at_1MHz module_of error_text)
                     [0; 0] 1 0 0 1000000 (with_replies [timed_out] idle)
                     SOAPY_SDR_TIMEOUT _ _ eq_refl) _).
    + unfold INT_MAX. lia.
    + left. reflexivity.
  - eexists.
    destruct (proj2 (proj2 (proj1 (burst_flag_discipline ticks_at_1MHz
                                     ns_at_1MHz ticks_at_1MHz module_of
                                     error_text)
                              [0; 0] 1 SOAPY_SDR_END_BURST 0 1000000
                              (with_replies
                                 [transferred 0 1; transferred 0 0] idle)
                              1 _ ltac:(unfold INT_MAX; lia) eq_refl))
                ltac:(lia) ltac:(discriminate))
      as (Hb & pre & e & Htr & He).
    exists pre, e. split; [reflexivity|]. split; [exact Hb|].
    split; [exact Htr|exact He].
Defined.

(** Two transmit calls outside the rule that a success leaves the flag
    set and an error code leaves it alone.  A transmit that succeeds and
    carries the end-of-burst flag leaves [_inTxBurst] clear.  A transmit
    of 4294967295 elements that the transport accepts opens a burst, and
    the count it returns, converted to [int], is -1, the value of
    SOAPY_SDR_TIMEOUT. *)
Lemma transmit_flag_exceptions :
  (exists s',
     writeStream ticks_at_1MHz [0; 0] 1 SOAPY_SDR_END_BURST 0 1000000
       (with_replies [transferred 0 1; transferred 0 0] idle)
     = Returns 1 s'
     /\ _inTxBurst s' = false)
  /\ (exists s',
        writeStream ticks_at_1MHz [] 4294967295 0 0 1000000
          (with_replies [transferred 0 0] idle)
        = Returns SOAPY_SDR_TIMEOUT s'
        /\ _inTxBurst (with_replies [transferred 0 0] idle) = false
        /\ _inTxBurst s' = true).
Proof. split; eexists; repeat split; reflexivity. Qed.

(** *** The closed statements about stream set-up *)

Lemma stream_tunables_normalised_witness :
  exists numBuffs bufSize numXfers,
    stream_tunables small_buffers = Some (numBuffs, bufSize, numXfers)
    /\ numBuffs = 2
    /\ (100 = 0 -> bufSize = DEF_BUFF_LEN)
    /\ (100 <> 0 -> bufSize mod 1024 = 0 /\ 100 <= bufSize < 100 + 1024)
    /\ numXfers = Z.min (Z.min 100 numBuffs) 32.
Proof.
  apply (stream_tunables_normalised small_buffers 1 100 100);
    try reflexivity.
  unfold INT_MAX. lia.
Defined.

(** Buffer lengths that are not rounded up to the next multiple of 1024.
    A length of -100 becomes 1024 although 0 is a multiple of 1024 not
    below it; a length of -2000 becomes 0 although -1024 is one; for a
    length of INT_MAX the rounding overflows [int], so no value is
    defined. *)
Lemma buffer_length_not_rounded_up :
  stream_tunables {[ "buflen" := "-100" ]} = Some (4096, 1024, 32)
  /\ (0 mod 1024 = 0 /\ -100 <= 0 < 1024)
  /\ stream_tunables {[ "buflen" := "-2000" ]} = Some (4096, 0, 32)
  /\ ((-1024) mod 1024 = 0 /\ -2000 <= -1024 < 0)
  /\ stream_tunables {[ "buflen" := "2147483647" ]} = None.
Proof. repeat split; try reflexivity; lia. Qed.

Lemma setupStream_default_buffer_count_witness :
  exists bufSize numXfers s',
    stream_tunables ∅ = Some (DEF_BUFF_LEN, bufSize, numXfers)
    /\ reached (setupStream module_of error_text SOAPY_SDR_RX "CS16" [] ∅
                  (with_replies [transferred 0 0; transferred 0 0] idle))
       = Some s'
    /\ trace (_dev s') !! 0%nat
       = Some (Event (bladerf_sync_config (module_of SOAPY_SDR_RX)
                        BLADERF_FORMAT_SC16_Q11_META 4096
                        (wrap_u32 bufSize) (wrap_u32 numXfers) 1000) 0)
    /\ DEF_BUFF_LEN = 4096
    /\ DEF_BUFF_LEN <> DEF_NUM_BUFFS.
Proof.
  apply (setupStream_default_buffer_count module_of error_text SOAPY_SDR_RX
           "CS16" [] ∅ (with_replies [transferred 0 0; transferred 0 0] idle)
           (transferred 0 0) [transferred 0 0]).
  - left. reflexivity.
  - left. reflexivity.
  - right. reflexivity.
  - discriminate.
  - reflexivity.
Defined.

(** *** The format converter *)

Lemma round_trip_exact_small v :
  - 250 <= v <= 250 -> round_trip v = Some v.
Proof.
  intros Hv.
  assert (H : exact_at v = true).
  { apply (forall_from_spec 501 (- 250) exact_at).
    - vm_compute. reflexivity.
    - lia. }
  unfold exact_at in H. destruct (round_trip v) as [r|]; [|discriminate].
  apply Z.eqb_eq in H. now subst.
Qed.

Lemma round_trip_within_one v :
  - 32768 <= v <= 32767 ->
  round_trip v = Some v \/ round_trip v = Some (v - Z.sgn v).
Proof.
  intros Hv.
  assert (H : within_one_toward_zero_at v = true).
  { apply (forall_from_spec (Pos.to_nat 65536) (- 32768)
             within_one_toward_zero_at).
    - vm_compute. reflexivity.
    - rewrite positive_nat_Z. lia. }
  unfold within_one_toward_zero_at in H.
  destruct (round_trip v) as [r|]; [|discriminate].
  apply orb_true_iff in H as [H|H]; apply Z.eqb_eq in H; subst; auto.
Qed.

(** C9, as the code has it.  Converting a fixed-point value to float
    ([float(v)/2000]) and back ([int16_t(f*2000)]) gives [v] again for
    every [v] from -250 to 250.  Over the whole of [int16_t] it gives [v]
    or the value next to [v] on the side of zero, and it is always
    defined. *)
Theorem round_trip_identity_up_to_250 v :
  - 32768 <= v <= 32767 ->
  (- 250 <= v <= 250 -> round_trip v = Some v)
  /\ (round_trip v = Some v \/ round_trip v = Some (v - Z.sgn v)).
Proof.
  intros Hv. split.
  - apply round_trip_exact_small.
  - now apply round_trip_within_one.
Qed.

Lemma round_trip_identity_up_to_250_witness :
  round_trip 100 = Some 100.
Proof.
  apply (proj1 (round_trip_identity_up_to_250 100 ltac:(lia))). lia.
Defined.

(** The round trip of 251, an eighth of the scale 2000, is 250; that of
    2047, the largest 12-bit sample, is 2046. *)
Lemma round_trip_251_is_250 :
  round_trip 251 = Some 250 /\ round_trip 2047 = Some 2046.
Proof. split; vm_compute; reflexivity. Qed.

(** The same on the negative side: -251 comes back as -250. *)
Example round_trip_minus_251 : round_trip (-251) = Some (-250).
Proof. vm_compute. reflexivity. Qed.

(** *** Witnesses of the further properties *)

Lemma stream_tunables_invariants_witness :
  2 <> 0 /\ 2 <> 1
  /\ Z.rem 1024 1024 = 0
  /\ 2 <= 32 /\ 2 <= 2
  /\ in_int 2 = true /\ in_int 1024 = true /\ in_int 2 = true.
Proof.
  apply (stream_tunables_invariants small_buffers 2 1024 2). reflexivity.
Defined.

Lemma setupStream_rejects_channels_witness :
  setupStream module_of error_text SOAPY_SDR_RX "CS16" [1] ∅ idle
  = Throws "setupStream invalid channel selection" idle.
Proof.
  apply (setupStream_rejects_channels module_of error_text); discriminate.
Defined.

Lemma setupStream_rejects_format_witness :
  setupStream module_of error_text SOAPY_SDR_TX "CS8" [0] ∅ idle
  = Throws "setupStream invalid format CS8" idle.
Proof.
  apply (setupStream_rejects_format module_of error_text);
    [right; reflexivity|discriminate|discriminate].
Defined.

Lemma setupStream_then_getStreamMTU_witness :
  exists s',
    setupStream module_of error_text SOAPY_SDR_RX "CF32" [] small_buffers
      (with_replies [transferred 0 0; transferred 0 0] idle)
    = Returns SOAPY_SDR_RX s'
    /\ getStreamMTU SOAPY_SDR_RX s' = Returns 1024 s'
    /\ _rxFloats s' = true.
Proof.
  destruct (setupStream_then_getStreamMTU module_of error_text SOAPY_SDR_RX
              "CF32" [] small_buffers
              (with_replies [transferred 0 0; transferred 0 0] idle)
              2 1024 2 (transferred 0 0) (transferred 0 0) [])
    as (s' & E & Hmtu & _ & Hrx & _);
    [left; reflexivity|left; reflexivity|reflexivity|reflexivity
    |reflexivity|reflexivity|].
  exists s'. split; [exact E|]. split; [exact Hmtu|].
  now destruct (Hrx eq_refl) as (-> & _).
Defined.

(** A negative buffer length comes back from getStreamMTU as a [size_t]:
    -1024 reads as 2^64 - 1024. *)
Example getStreamMTU_of_negative_length :
  exists s',
    setupStream module_of error_text SOAPY_SDR_RX "CS16" []
      {[ "buflen" := "-1024" ]}
      (with_replies [transferred 0 0; transferred 0 0] idle)
    = Returns SOAPY_SDR_RX s'
    /\ getStreamMTU SOAPY_SDR_RX s' = Returns 18446744073709550592 s'.
Proof. eexists. split; reflexivity. Qed.

Lemma setupStream_transport_refusal_witness :
  exists code text (calls : list dev_event) s',
    setupStream module_of error_text SOAPY_SDR_TX "CS16" [0] ∅
      (with_replies [transferred 0 0; io_error] idle)
    = Throws ("setupStream() " +:+ error_text code) s'
    /\ code <> 0
    /\ logged s' = [Log SOAPY_SDR_ERROR text [ArgInt code]]
    /\ length calls = 1%nat
    /\ _cachedBuffSizes s' = ∅.
Proof.
  destruct (setupStream_transport_refusal module_of error_text SOAPY_SDR_TX
              "CS16" [0] ∅ (with_replies [transferred 0 0; io_error] idle)
              4096 4096 32 (transferred 0 0) [io_error])
    as (code & text & calls & s' & E & Hc & Hlog & _ & _ & Hcalls & Hcache
        & _);
    [right; reflexivity|right; reflexivity|reflexivity|reflexivity| |].
  - right. exists io_error, []. repeat split. discriminate.
  - exists code, text, calls, s'. split; [exact E|]. split; [exact Hc|].
    split; [exact Hlog|]. split; [|exact Hcache].
    now rewrite (Hcalls eq_refl).
Defined.

Lemma closeStream_only_disables_witness :
  exists s',
    closeStream module_of error_text SOAPY_SDR_TX
      (with_replies [transferred 0 0]
         (set_inTxBurst true (set_rxCmds [hundred] idle)))
    = Returns tt s'
    /\ _rxCmds s' = [hundred]
    /\ _inTxBurst s' = true.
Proof.
  destruct (closeStream_only_disables module_of error_text SOAPY_SDR_TX
              (with_replies [transferred 0 0]
                 (set_inTxBurst true (set_rxCmds [hundred] idle)))
              (transferred 0 0) [] eq_refl)
    as (s' & _ & Hret & _ & _ & Hq & Hb & _).
  exists s'. split; [now apply Hret|]. now split.
Defined.

Lemma readStream_transport_request_witness :
  exists s',
    reached (readStream ticks_at_1MHz ns_at_1MHz error_text 512 0 0 250000
               (receiver_facing [timed_out]))
    = Some s'
    /\ trace (_dev s')
       = [Event (bladerf_sync_rx UserBuffer 100
                   (Metadata 0 BLADERF_META_FLAG_RX_NOW 0 0) 250)
            BLADERF_ERR_TIMEOUT].
Proof.
  destruct (readStream_transport_request ticks_at_1MHz ns_at_1MHz error_text
              512 0 0 250000 (receiver_facing [timed_out]) hundred
              [RxCmd 0 0 0] timed_out [] eq_refl eq_refl eq_refl)
    as (s' & E & Hd); [discriminate|].
  exists s'. split; [exact E|]. now rewrite Hd.
Defined.

Lemma readStream_transport_timeout_witness :
  exists user s',
    readStream ticks_at_1MHz ns_at_1MHz error_text 512 6 77 250000
      (receiver_facing [timed_out])
    = Returns (ReadResult SOAPY_SDR_TIMEOUT 0 0 user) s'
    /\ _rxCmds s' = [hundred; RxCmd 0 0 0].
Proof.
  destruct (readStream_transport_timeout ticks_at_1MHz ns_at_1MHz error_text
              512 6 77 250000 (receiver_facing [timed_out]) timed_out [])
    as (user & s' & E & Hq & _);
    [discriminate|reflexivity|reflexivity|reflexivity|discriminate|].
  exists user, s'. now split.
Defined.

Lemma readStream_transport_error_witness :
  exists user s',
    readStream ticks_at_1MHz ns_at_1MHz error_text 512 0 0 250000
      (receiver_facing [io_error])
    = Returns (ReadResult SOAPY_SDR_STREAM_ERROR 0 0 user) s'
    /\ _rxCmds s' = [RxCmd 0 0 0].
Proof.
  destruct (readStream_transport_error ticks_at_1MHz ns_at_1MHz error_text
              512 0 0 250000 (receiver_facing [io_error]) hundred
              [RxCmd 0 0 0] io_error [])
    as (user & s' & E & Hq & _);
    [reflexivity|reflexivity|reflexivity|discriminate|discriminate
    |discriminate|].
  exists user, s'. now split.
Defined.

Lemma readStream_queue_discipline_witness :
  exists s',
    reached (readStream ticks_at_1MHz ns_at_1MHz error_text 512 0 0 250000
               (receiver_facing [transferred 0 100]))
    = Some s'
    /\ (_rxCmds s' = [hundred; RxCmd 0 0 0] \/ _rxCmds s' = [RxCmd 0 0 0])
    /\ _inTxBurst s' = false.
Proof.
  eexists. split; [reflexivity|].
  destruct (readStream_queue_discipline ticks_at_1MHz ns_at_1MHz error_text
              512 0 0 250000 (receiver_facing [transferred 0 100]) _
              eq_refl) as (Hq & _ & _ & _ & Hb & _).
  split; [exact Hq|exact Hb].
Defined.

Lemma readStream_serves_front_first_witness :
  readStream ticks_at_1MHz ns_at_1MHz error_text 512 0 0 250000
    (enqueue (RxCmd 0 0 1) (receiver_facing [transferred 0 100]))
  = map_engine (enqueue (RxCmd 0 0 1))
      (readStream ticks_at_1MHz ns_at_1MHz error_text 512 0 0 250000
         (receiver_facing [transferred 0 100])).
Proof.
  apply (readStream_serves_front_first ticks_at_1MHz ns_at_1MHz error_text).
  discriminate.
Defined.

Lemma readStream_float_output_witness :
  exists s',
    readStream ticks_at_1MHz ns_at_1MHz error_text 8 0 0 250000
      float_receiver
    = Returns (ReadResult 2 SOAPY_SDR_HAS_TIME 100000
                 (WroteCF32 (map fixed_to_float [2000; -1000; 500; 250])))
        s'
    /\ _rxConvBuff s' = [2000; -1000; 500; 250; 7; 7].
Proof.
  apply (proj1 (readStream_float_output ticks_at_1MHz ns_at_1MHz error_text
                  8 0 0 250000 float_receiver
                  (RxCmd SOAPY_SDR_HAS_TIME 3000 2) []
                  (Reply 0 100 0 2 [2000; -1000; 500; 250]) []
                  eq_refl eq_refl eq_refl eq_refl eq_refl
                  ltac:(vm_compute; lia))).
  vm_compute. lia.
Defined.

Lemma deactivateStream_receive_witness :
  deactivateStream SOAPY_SDR_RX 0 (receiver_facing [])
  = Returns 0 (set_rxCmds [] (receiver_facing []))
  /\ deactivateStream SOAPY_SDR_RX 8 (receiver_facing [])
     = Returns SOAPY_SDR_NOT_SUPPORTED (receiver_facing []).
Proof.
  destruct (deactivateStream_receive ticks_at_1MHz ns_at_1MHz error_text 0
              (receiver_facing [])) as [H0 _].
  destruct (deactivateStream_receive ticks_at_1MHz ns_at_1MHz error_text 8
              (receiver_facing [])) as [_ H8].
  split; [exact (proj1 (H0 eq_refl))|].
  apply H8. discriminate.
Defined.

Lemma deactivateStream_transmit_witness :
  exists calls s',
    deactivateStream SOAPY_SDR_TX 0 busy_then_broken = Returns 0 s'
    /\ _inTxBurst s' = false
    /\ map ev_ret calls = [BLADERF_ERR_TIMEOUT; -5; 0]
    /\ trace (_dev s') = calls.
Proof.
  destruct (proj2 (deactivateStream_transmit busy_then_broken) eq_refl
              [timed_out; io_error] (transferred 0 0) [] eq_refl)
    as (calls & s' & E & Hb & Hd & Hrets & _);
    [repeat constructor; discriminate|reflexivity|].
  exists calls, s'. split; [exact E|]. split; [exact Hb|].
  split; [exact Hrets|]. now rewrite Hd.
Defined.

Lemma writeStream_transport_request_witness :
  exists s' more,
    reached (writeStream ticks_at_1MHz [1; 2; 3; 4] 2 SOAPY_SDR_HAS_TIME
               5000 250000 (with_replies [transferred 0 0] idle))
    = Some s'
    /\ trace (_dev s')
       = Event (bladerf_sync_tx UserBuffer [1; 2; 3; 4] 2
                  (Metadata 5 BLADERF_META_FLAG_TX_BURST_START 0 0) 250) 0
         :: more
    /\ more = [].
Proof.
  destruct (writeStream_transport_request ticks_at_1MHz [1; 2; 3; 4] 2
              SOAPY_SDR_HAS_TIME 5000 250000
              (with_replies [transferred 0 0] idle) (transferred 0 0) []
              eq_refl)
    as (s' & payload & more & E & Htr & _ & Hnone & Hnative);
    [discriminate|].
  destruct (Hnative eq_refl) as [-> _].
  exists s', more. split; [exact E|]. split; [exact Htr|].
  apply Hnone. right. reflexivity.
Defined.

Lemma writeStream_leaves_receive_side_witness :
  exists s',
    reached (writeStream ticks_at_1MHz [1; 2] 1 0 0 250000
               (receiver_facing [transferred 0 0]))
    = Some s'
    /\ _rxCmds s' = [hundred; RxCmd 0 0 0].
Proof.
  eexists. split; [reflexivity|].
  exact (proj1 (writeStream_leaves_receive_side ticks_at_1MHz [1; 2] 1 0 0
                  250000 (receiver_facing [transferred 0 0]) _ eq_refl)).
Defined.

Lemma second_transmit_continues_burst_witness :
  exists s1 s2 md1 md2 more,
    writeStream ticks_at_1MHz [1; 2] 1 0 0 250000
      (with_replies [transferred 0 0; transferred 0 0] idle)
    = Returns 1 s1
    /\ reached (writeStream ticks_at_1MHz [3; 4] 1 0 0 250000 s1) = Some s2
    /\ trace (_dev s2)
       = Event (bladerf_sync_tx UserBuffer [1; 2] 1 md1 250) 0
         :: Event (bladerf_sync_tx UserBuffer [3; 4] 1 md2 250) 0
         :: more
    /\ Z.land (md_flags md1) BLADERF_META_FLAG_TX_BURST_START
       = BLADERF_META_FLAG_TX_BURST_START
    /\ Z.land (md_flags md2) BLADERF_META_FLAG_TX_BURST_START = 0.
Proof.
  apply (second_transmit_continues_burst ticks_at_1MHz [1; 2] 1 0 0 250000
           [3; 4] 1 0 0 250000
           (with_replies [transferred 0 0; transferred 0 0] idle)
           (transferred 0 0) (transferred 0 0) []); reflexivity.
Defined.

Lemma underflow_reported_once_witness :
  exists s1,
    writeStream ticks_at_1MHz [1; 2] 1 0 0 250000
      (with_replies [underran] idle)
    = Returns 1 s1
    /\ readStreamStatus s1
       = Returns (StatusResult SOAPY_SDR_UNDERFLOW 0 0)
           (set_txUnderflow false s1)
    /\ readStreamStatus (set_txUnderflow false s1)
       = Returns (StatusResult 0 0 0) (set_txUnderflow false s1).
Proof.
  eexists. split; [reflexivity|].
  destruct (proj1 (underflow_reported_once ticks_at_1MHz [1; 2] 1 0 0 250000
                     (with_replies [underran] idle) underran [] 1 _
                     eq_refl eq_refl) eq_refl)
    as (_ & H1 & H2); [discriminate|].
  split; [exact H1|exact H2].
Defined.

Lemma writeStream_float_payload_witness :
  exists s' payload md more,
    reached (writeStream ticks_at_1MHz [] 1 0 0 250000 stale_transmitter)
    = Some s'
    /\ trace (_dev s')
       = Event (bladerf_sync_tx TxConvBuff payload 1 md 250) 0 :: more
    /\ length payload = 6%nat
    /\ payload !! 4%nat = Some 9.
Proof.
  eexists.
  destruct (writeStream_float_payload ticks_at_1MHz [] 1 0 0 250000
              stale_transmitter (transferred 0 1) [] _
              eq_refl eq_refl eq_refl)
    as (payload & md & more & Htr & Hlen & _ & Habove).
  exists payload, md, more. split; [reflexivity|]. split; [exact Htr|].
  split; [exact Hlen|]. apply (Habove 4%nat). vm_compute. lia.
Defined.

